(** * preset-validation: German tax identifiers, IBAN and BIC validators

    A shallow embedding of the TypeScript sources
    - [src/preset-validation.helper.ts]      (tax ID, IBAN, BIC),
    - [tax-number/prufziffernverfahren.ts]   (checksum engine),
    - [tax-number/normalization.ts]          (normalizer),
    - [tax-number/validation-tax-number.ts]  (tax-number validator),
    together with the properties the specification states about them.

    JavaScript strings are sequences of UTF-16 code units and are modelled
    as [list N].  JavaScript numbers only ever hold small integers or NaN
    in this code and are modelled as [option Z], [None] being NaN. *)

From Stdlib Require Import String Ascii Bool ZArith NArith Lia List.
Import ListNotations.

Local Open Scope Z_scope.

(** ** The JavaScript primitives the sources rely on *)

Module JS.

Definition jsstring := list N.

(** A literal written in ASCII. *)
Definition js (s : string) : jsstring :=
  List.map N_of_ascii (list_ascii_of_string s).

Fixpoint str_eqb (a b : jsstring) : bool :=
  match a, b with
  | [], [] => true
  | x :: a', y :: b' => N.eqb x y && str_eqb a' b'
  | _, _ => false
  end.

(** [\d] : the ten ASCII digits. *)
Definition isDigit (c : N) : bool := (N.leb 48 c && N.leb c 57)%N.

(** [[A-Z]]. *)
Definition isUpper (c : N) : bool := (N.leb 65 c && N.leb c 90)%N.

(** [[A-Z0-9]]. *)
Definition isUpperOrDigit (c : N) : bool := isUpper c || isDigit c.

(** [\s], which is also the set [trim] strips and the set [Number]
    ignores: WhiteSpace and LineTerminator of ECMA-262. *)
Definition isSpace (c : N) : bool :=
  ((N.leb 9 c && N.leb c 13) || N.eqb c 32 || N.eqb c 160 || N.eqb c 5760
   || (N.leb 8192 c && N.leb c 8202) || N.eqb c 8232 || N.eqb c 8233
   || N.eqb c 8239 || N.eqb c 8287 || N.eqb c 12288 || N.eqb c 65279)%N.

(** [s.replace(/\D+/g, '')] *)
Definition stripNonDigits (s : jsstring) : jsstring := filter isDigit s.

(** [s.replace(/\s/g, '')] *)
Definition stripSpaces (s : jsstring) : jsstring :=
  filter (fun c => negb (isSpace c)) s.

Fixpoint trimStart (s : jsstring) : jsstring :=
  match s with
  | c :: s' => if isSpace c then trimStart s' else s
  | [] => []
  end.

(** [s.trim()] *)
Definition trim (s : jsstring) : jsstring :=
  rev (trimStart (rev (trimStart s))).

(** [s.substring(a, b)]: the arguments are clamped to the length and
    swapped when [a > b]. *)
Definition substring (a b : nat) (s : jsstring) : jsstring :=
  let lo := Nat.min a b in
  let hi := Nat.max a b in
  firstn (hi - lo) (skipn lo s).

(** [s.substring(a)] and [s.slice(a)] with [a >= 0]. *)
Definition substringFrom (a : nat) (s : jsstring) : jsstring := skipn a s.

(** [s.slice(0, b)] with [b >= 0]. *)
Definition sliceTo (b : nat) (s : jsstring) : jsstring := firstn b s.

(** [s.charAt(i)]: the empty string out of range. *)
Definition charAt (i : nat) (s : jsstring) : jsstring :=
  match nth_error s i with Some c => [c] | None => [] end.

(** [/^0+$/.test(s)] *)
Definition allZeros (s : jsstring) : bool :=
  match s with
  | [] => false
  | _ => forallb (N.eqb 48) s
  end.

(** Numbers: an integer, or NaN. *)
Definition number := option Z.

Definition lift2 (f : Z -> Z -> Z) (a b : number) : number :=
  match a, b with
  | Some x, Some y => Some (f x y)
  | _, _ => None
  end.

Definition add := lift2 Z.add.
Definition sub := lift2 Z.sub.
Definition mul := lift2 Z.mul.

(** [a % b]: the remainder has the sign of the dividend; NaN when the
    divisor is zero. *)
Definition rem (a b : number) : number :=
  match a, b with
  | Some x, Some y => if y =? 0 then None else Some (Z.rem x y)
  | _, _ => None
  end.

(** [a === b] on numbers: NaN is equal to nothing. *)
Definition strictEq (a b : number) : bool :=
  match a, b with
  | Some x, Some y => x =? y
  | _, _ => false
  end.

(** [Number(s[i])]: [s[i]] is undefined out of range, and
    [Number(undefined)] is NaN; a one-unit string is a digit, or white
    space (which reads as 0), or not a numeral. *)
Definition NumberAt (s : jsstring) (i : nat) : number :=
  match nth_error s i with
  | None => None
  | Some c =>
      if isDigit c then Some (Z.of_N c - 48)
      else if isSpace c then Some 0
      else None
  end.

(** [parseInt(s, 10)] where [s] is [charAt] of something: at most one
    code unit, and only a digit parses. *)
Definition parseInt (s : jsstring) : number :=
  match s with
  | c :: _ => if isDigit c then Some (Z.of_N c - 48) else None
  | [] => None
  end.

(** [n.toString()] for [0 <= n < 100]. *)
Definition toString2 (n : Z) : jsstring :=
  if n <? 10 then [Z.to_N (48 + n)]
  else [Z.to_N (48 + n / 10); Z.to_N (48 + n mod 10)].

End JS.

Import JS.

(** ** tax-number/finanzamtsdaten.ts

    The registry file itself is not part of the verified sources; the three
    fields the code reads are taken from their uses. *)

Module Finanzamtsdaten.

(** Modelled from the spec: the declaration of [FinanzamtInfo] is in the
    missing registry file.  An entry carries its checksum procedure and the
    name of its federal state (section 3); the code reads them as
    [verfahren] and [bundesland], and reads the office number as
    [finanzamtsnummer]. *)
Record FinanzamtInfo := mkInfo {
  finanzamtsnummer : jsstring;
  verfahren : jsstring;
  bundesland : jsstring
}.

(** [BUFA_MAP] is given as the list [Object.entries(BUFA_MAP)]
    enumerates, in that order. *)
Definition registry := list (jsstring * FinanzamtInfo).

(** [BUFA_MAP[bufa]]: [None] is undefined. *)
Fixpoint lookup (m : registry) (bufa : jsstring) : option FinanzamtInfo :=
  match m with
  | [] => None
  | (k, info) :: m' => if str_eqb k bufa then Some info else lookup m' bufa
  end.

(** The data model: every regional code has four characters. *)
Definition fourCharacterCodes (m : registry) : Prop :=
  Forall (fun e => length (fst e) = 4%nat) m.

End Finanzamtsdaten.

Import Finanzamtsdaten.

(** ** tax-number/prufziffernverfahren.ts *)

Definition BERLIN_A_MULTIPLIERS : list Z :=
  [0; 0; 0; 0; 0; 7; 6; 5; 8; 4; 3; 2].

Definition BERLIN_B_MULTIPLIERS : list Z :=
  [0; 0; 2; 9; 0; 8; 7; 6; 5; 4; 3; 2].

(** [multipliers[i]]: undefined out of range, which makes the product NaN. *)
Definition weightAt (multipliers : list Z) (i : nat) : number :=
  nth_error multipliers i.

Definition pruefzifferBayern (elster13 : jsstring) : number :=
  let base := [1; 2; 1; 2; 1; 2; 1; 2; 1; 2; 1; 2] in
  let sum :=
    fold_left
      (fun sum i =>
         let p := mul (NumberAt elster13 i) (weightAt base i) in
         add sum
           (match p with
            | Some v => if 9 <? v then Some (Z.rem v 10 + 1) else Some v
            | None => None
            end))
      (seq 0 12) (Some 0) in
  rem (sub (Some 10) (rem sum (Some 10))) (Some 10).

Definition computeWeightedCheckDigit (body : jsstring) (multipliers : list Z)
  : number :=
  let sum :=
    fold_left
      (fun sum i => add sum (mul (NumberAt body i) (weightAt multipliers i)))
      (seq 0 12) (Some 0) in
  rem (rem sum (Some 11)) (Some 10).

Definition validatePruefziffer (elster13 : jsstring) (info : FinanzamtInfo)
  : bool :=
  let body := substring 0 12 elster13 in
  let checkDigit := NumberAt elster13 12 in
  if str_eqb (verfahren info) (js "BERLIN_A") then
    strictEq (computeWeightedCheckDigit body BERLIN_A_MULTIPLIERS) checkDigit
  else if str_eqb (verfahren info) (js "BERLIN_B") then
    strictEq (computeWeightedCheckDigit body BERLIN_B_MULTIPLIERS) checkDigit
  else if str_eqb (verfahren info) (js "BAYERN_11ER") then
    strictEq (pruefzifferBayern elster13) checkDigit
  else if str_eqb (verfahren info) (js "NRW") then
    strictEq
      (computeWeightedCheckDigit body [0; 3; 2; 1; 0; 7; 6; 5; 4; 3; 2; 1])
      checkDigit
  else
    strictEq (pruefzifferBayern elster13) checkDigit.

(** ** tax-number/normalization.ts *)

Definition normalizeSteuernummer (input : jsstring) : jsstring :=
  match input with
  | [] => []
  | _ =>
      let digits := stripNonDigits input in
      if Nat.eqb (length digits) 10 then digits
      else if Nat.eqb (length digits) 11 then digits
      else if Nat.eqb (length digits) 12 then digits
      else if Nat.eqb (length digits) 13 then digits
      else []
  end.

(** [None] is null. *)
Definition normalizeTo13Digits (input bufa : jsstring) : option jsstring :=
  let digits := stripNonDigits input in
  let LL := substring 0 2 bufa in
  let isNRW := str_eqb LL (js "05") in
  if Nat.eqb (length digits) 10 then
    let FF_in := substring 0 2 digits in
    let BBB := substring 2 5 digits in
    let UUUU := substring 5 9 digits in
    let P := substringFrom 9 digits in
    if negb isNRW then
      Some (LL ++ FF_in ++ js "0" ++ BBB ++ UUUU ++ P)
    else
      let BBBB := substring 2 6 digits in
      let UUUP := substring 6 10 digits in
      Some (LL ++ FF_in ++ js "0" ++ BBBB ++ UUUP)
  else if Nat.eqb (length digits) 11 then
    let FF_in := substring 0 2 digits in
    if negb isNRW then
      let BBB := substring 2 5 digits in
      let UUUU := substring 5 9 digits in
      let P := substring 9 11 digits in
      Some (LL ++ FF_in ++ js "0" ++ BBB ++ UUUU ++ P)
    else
      let BBBB := substring 2 6 digits in
      let UUUP := substring 6 11 digits in
      Some (LL ++ FF_in ++ js "0" ++ BBBB ++ UUUP)
  else if Nat.eqb (length digits) 12 then
    let LL_in := substring 0 2 digits in
    let FF_in := substring 2 4 digits in
    if negb isNRW then
      let BBB := substring 4 7 digits in
      let UUUU := substring 7 11 digits in
      let P := substring 11 12 digits in
      Some (LL_in ++ FF_in ++ js "0" ++ BBB ++ UUUU ++ P)
    else
      let BBBB := substring 4 8 digits in
      let UUUP := substring 8 12 digits in
      Some (LL_in ++ FF_in ++ js "0" ++ BBBB ++ UUUP)
  else if Nat.eqb (length digits) 13 then
    Some digits
  else
    None.

(** ** tax-number/validation-tax-number.ts *)

(** The object the validators return; an absent property is [None]. *)
Record Result := mkResult {
  valid : bool;
  normalized : option jsstring;
  bufa : option jsstring;
  bundesland : option jsstring;
  reason : option jsstring
}.

Definition invalid (why : jsstring) : Result :=
  mkResult false None None None (Some why).

Definition accepted (n b land : jsstring) : Result :=
  mkResult true (Some n) (Some b) (Some land) None.

(** The u-umlaut of the messages is the code unit 252. *)
Definition Pruefziffer : jsstring := js "Pr" ++ [252%N] ++ js "fziffer".

Definition reason_all_zeros : jsstring := js "Tax number cannot be all zeros".
Definition reason_unknown_finanzamt : jsstring :=
  js "Unknown Finanzamt number - no matching BUFA found".
Definition reason_all_bufas_failed : jsstring :=
  js "Invalid check digit (" ++ Pruefziffer ++ js ") for all possible BUFAs".
Definition reason_unknown_bufa_code : jsstring :=
  js "Unknown BUFA code - not a valid German tax office".
Definition reason_cannot_convert : jsstring :=
  js "Cannot convert to 13-digit format".
Definition reason_invalid_check_digit : jsstring :=
  js "Invalid check digit (" ++ Pruefziffer ++ js ")".
Definition reason_unknown_bufa : jsstring := js "Unknown BUFA or Finanzamt".
Definition reason_invalid_pruefziffer : jsstring :=
  js "Invalid " ++ Pruefziffer.
Definition reason_invalid_length_or_characters : jsstring :=
  js "Invalid length or characters".
Definition reason_invalid_length : jsstring :=
  js "Invalid length: must be 10, 11, 12, or 13 digits".

(** A string in a condition: null and the empty string are falsy. *)
Definition truthy (s : option jsstring) : bool :=
  match s with
  | Some (_ :: _) => true
  | _ => false
  end.

Section Validation.

Variable BUFA_MAP : registry.

Definition findPossibleBufas (finanzamtNumber : jsstring) : list jsstring :=
  List.map fst
    (filter (fun e => str_eqb (finanzamtsnummer (snd e)) finanzamtNumber)
       BUFA_MAP).

(** The [for (const bufa of possibleBufas)] loop shared by the 10- and
    11-digit validators: [Some] is the early return, [None] falls out of
    the loop.  [BUFA_MAP[bufa]] is defined for every [bufa] that
    [findPossibleBufas] returns (lemma [findPossibleBufas_lookup]); the
    branch for an undefined entry is there for totality only. *)
Fixpoint tryBufas (normalized : jsstring) (possibleBufas : list jsstring)
  : option Result :=
  match possibleBufas with
  | [] => None
  | bufa :: rest =>
      let converted13Digit := normalizeTo13Digits normalized bufa in
      match converted13Digit with
      | Some c =>
          if truthy converted13Digit then
            match lookup BUFA_MAP bufa with
            | Some info =>
                if validatePruefziffer c info then
                  Some (accepted c bufa (Finanzamtsdaten.bundesland info))
                else tryBufas normalized rest
            | None => tryBufas normalized rest
            end
          else tryBufas normalized rest
      | None => tryBufas normalized rest
      end
  end.

Definition validate10DigitFormat (normalized : jsstring) : Result :=
  if allZeros normalized then invalid reason_all_zeros
  else
    let finanzamtNumber := substring 0 2 normalized in
    let possibleBufas := findPossibleBufas finanzamtNumber in
    if Nat.eqb (length possibleBufas) 0 then invalid reason_unknown_finanzamt
    else
      match tryBufas normalized possibleBufas with
      | Some r => r
      | None => invalid reason_all_bufas_failed
      end.

Definition validate11DigitFormat (normalized : jsstring) : Result :=
  if allZeros normalized then invalid reason_all_zeros
  else
    let finanzamtNumber := substring 0 2 normalized in
    let possibleBufas := findPossibleBufas finanzamtNumber in
    if Nat.eqb (length possibleBufas) 0 then invalid reason_unknown_finanzamt
    else
      match tryBufas normalized possibleBufas with
      | Some r => r
      | None => invalid reason_all_bufas_failed
      end.

Definition validate12DigitFormat (normalized : jsstring) : Result :=
  if allZeros normalized then invalid reason_all_zeros
  else
    let bufa := substring 0 4 normalized in
    match lookup BUFA_MAP bufa with
    | None => invalid reason_unknown_bufa_code
    | Some info =>
        let converted13Digit := normalizeTo13Digits normalized bufa in
        match converted13Digit with
        | Some c =>
            if negb (truthy converted13Digit) then
              invalid reason_cannot_convert
            else if negb (validatePruefziffer c info) then
              invalid reason_invalid_check_digit
            else accepted c bufa (Finanzamtsdaten.bundesland info)
        | None => invalid reason_cannot_convert
        end
    end.

Definition validate13DigitFormat (normalized : jsstring) : Result :=
  let landesnummer := substring 0 2 normalized in
  let finanzamtsnummer := substring 2 4 normalized in
  let bufa := landesnummer ++ finanzamtsnummer in
  match lookup BUFA_MAP bufa with
  | None => invalid reason_unknown_bufa
  | Some info =>
      if negb (validatePruefziffer normalized info) then
        mkResult false None (Some bufa)
          (Some (Finanzamtsdaten.bundesland info))
          (Some reason_invalid_pruefziffer)
      else accepted normalized bufa (Finanzamtsdaten.bundesland info)
  end.

Definition validateSteuernummer (input : jsstring) : Result :=
  let normalized := normalizeSteuernummer input in
  match normalized with
  | [] => invalid reason_invalid_length_or_characters
  | _ =>
      if Nat.eqb (length normalized) 10 then validate10DigitFormat normalized
      else if Nat.eqb (length normalized) 11 then
        validate11DigitFormat normalized
      else if Nat.eqb (length normalized) 12 then
        validate12DigitFormat normalized
      else if Nat.eqb (length normalized) 13 then
        validate13DigitFormat normalized
      else invalid reason_invalid_length
  end.

End Validation.

(** ** src/preset-validation.helper.ts *)

(** The loop runs [i] over the indices of [taxIdDigits] and reads
    [charAt(i)]: a fold over the code units. *)
Definition calculateTaxIdCheckDigit (taxIdDigits : jsstring) : number :=
  let modulus := 11 in
  let base := 10 in
  let product :=
    fold_left
      (fun product c =>
         let digit := parseInt [c] in
         let sum := rem (add digit product) (Some base) in
         let sum := if strictEq sum (Some 0) then Some base else sum in
         rem (mul (Some 2) sum) (Some modulus))
      taxIdDigits (Some base) in
  let checkDigit := sub (Some modulus) product in
  if strictEq checkDigit (Some 10) then Some 0 else checkDigit.

(** The body of the loop above, with its constants, named for the proofs. *)
Definition taxIdLoopBody (product : number) (c : N) : number :=
  let digit := parseInt [c] in
  let sum := rem (add digit product) (Some 10) in
  let sum := if strictEq sum (Some 0) then Some 10 else sum in
  rem (mul (Some 2) sum) (Some 11).

(** [/^\d{11}$/.test(s)] *)
Definition elevenDigits (s : jsstring) : bool :=
  Nat.eqb (length s) 11 && forallb isDigit s.

Definition validateGermanTaxId (taxId : jsstring) : bool :=
  let cleanedTaxId := stripSpaces (trim taxId) in
  if negb (elevenDigits cleanedTaxId) then false
  else
    let mainDigits := substring 0 10 cleanedTaxId in
    let providedCheckDigit := parseInt (charAt 10 cleanedTaxId) in
    let calculatedCheckDigit := calculateTaxIdCheckDigit mainDigits in
    strictEq calculatedCheckDigit providedCheckDigit.

Definition validateGermanTaxNumber (BUFA_MAP : registry)
  (taxNumber : jsstring) : bool :=
  let result := validateSteuernummer BUFA_MAP taxNumber in
  valid result.

(** [/^[A-Z]{2}[0-9]{2}[A-Z0-9]+$/.test(s)] *)
Definition ibanFormat (s : jsstring) : bool :=
  match s with
  | a :: b :: c :: d :: e :: rest =>
      isUpper a && isUpper b && isDigit c && isDigit d
      && forallb isUpperOrDigit (e :: rest)
  | _ => false
  end.

(** The body of the remainder loop of [validateIBAN], named for the
    proofs. *)
Definition ibanLoopBody (remainder : number) (c : N) : number :=
  rem (add (mul remainder (Some 10)) (parseInt [c])) (Some 97).

(** [/^[A-Z]{4}[A-Z]{2}[A-Z0-9]{2}$/.test(s)] *)
Definition bicFormat8 (s : jsstring) : bool :=
  Nat.eqb (length s) 8
  && forallb isUpper (firstn 6 s) && forallb isUpperOrDigit (skipn 6 s).

(** [/^[A-Z]{4}[A-Z]{2}[A-Z0-9]{2}[A-Z0-9]{3}$/.test(s)] *)
Definition bicFormat11 (s : jsstring) : bool :=
  Nat.eqb (length s) 11
  && forallb isUpper (firstn 6 s) && forallb isUpperOrDigit (skipn 6 s).

(** [validCodes.includes(code)] *)
Definition includes (validCodes : list jsstring) (code : jsstring) : bool :=
  existsb (str_eqb code) validCodes.

Section Banking.

(** [String.prototype.toUpperCase] follows the Unicode case tables and is
    left abstract; [countryCodes] is the array of [country-codes.json]. *)
Variable toUpperCase : jsstring -> jsstring.
Variable countryCodes : list jsstring.

Definition validateIBAN (iban : jsstring) : bool :=
  let cleaned := toUpperCase (stripSpaces (trim iban)) in
  if (length cleaned <? 15)%nat || (34 <? length cleaned)%nat then false
  else if negb (ibanFormat cleaned) then false
  else
    let countryCode := substring 0 2 cleaned in
    let validCodes := countryCodes in
    if negb (includes validCodes countryCode) then false
    else
      let rearranged := substringFrom 4 cleaned ++ sliceTo 4 cleaned in
      let numericString :=
        flat_map
          (fun char =>
             if isUpper char then toString2 (Z.of_N char - 55) else [char])
          rearranged in
      let remainder :=
        fold_left
          (fun remainder c =>
             rem (add (mul remainder (Some 10)) (parseInt [c])) (Some 97))
          numericString (Some 0) in
      strictEq remainder (Some 1).

Definition validateBIC (bic : jsstring) : bool :=
  let cleaned := toUpperCase (stripSpaces (trim bic)) in
  if negb (Nat.eqb (length cleaned) 8) && negb (Nat.eqb (length cleaned) 11)
  then false
  else if
    (if Nat.eqb (length cleaned) 8 then negb (bicFormat8 cleaned)
     else negb (bicFormat11 cleaned))
  then false
  else
    let countryCode := substring 4 6 cleaned in
    let validCodes := countryCodes in
    if negb (includes validCodes countryCode) then false
    else true.

End Banking.

(** ** Reference definitions, written after the specification *)

Module Spec.

(** The value of a digit character. *)
Definition digitValue (c : N) : Z := Z.of_N c - 48.

Definition digitValues (s : jsstring) : list Z := List.map digitValue s.

Definition IsDigit (c : N) : Prop := (48 <= c <= 57)%N.

Definition IsLetter (c : N) : Prop := (65 <= c <= 90)%N.

Definition IsAlphanumeric (c : N) : Prop := IsLetter c \/ IsDigit c.

(** *** 4.2, procedure "standard" *)

(** The sum of the decimal digits of a number below 100. *)
Definition digitSum (p : Z) : Z := p / 10 + p mod 10.

(** Positions 0, 2, 4, ... weigh 1 and positions 1, 3, 5, ... weigh 2. *)
Definition standardWeight (position : nat) : Z :=
  if Nat.even position then 1 else 2.

Definition standardAdjust (product : Z) : Z :=
  if 9 <? product then digitSum product else product.

Fixpoint standardSum (position : nat) (body : list Z) : Z :=
  match body with
  | [] => 0
  | d :: body' =>
      standardAdjust (d * standardWeight position)
      + standardSum (S position) body'
  end.

Definition standardCheck (body : list Z) : Z :=
  (10 - standardSum 0 body mod 10) mod 10.

(** The check digit of the 12 body digits equals the 13th digit. *)
Definition standardValid (canonical : jsstring) : bool :=
  standardCheck (digitValues (firstn 12 canonical))
  =? nth 12 (digitValues canonical) (-1).

(** *** 4.4, the tax-ID check digit *)

Definition taxIdStep (product digit : Z) : Z :=
  let sum := (digit + product) mod 10 in
  let sum := if sum =? 0 then 10 else sum in
  (2 * sum) mod 11.

Definition taxIdCheckDigit (digits : list Z) : Z :=
  let product := fold_left taxIdStep digits 10 in
  let check := (11 - product) mod 11 in
  if check =? 10 then 0 else check.

(** Exactly 11 decimal digits after whitespace stripping, the 11th being
    the check digit of the first ten. *)
Definition ValidTaxId (s : jsstring) : Prop :=
  let cleaned := stripSpaces s in
  length cleaned = 11%nat /\
  Forall IsDigit cleaned /\
  nth 10 (digitValues cleaned) (-1)
  = taxIdCheckDigit (firstn 10 (digitValues cleaned)).

(** *** 4.5, the IBAN *)

(** A = 10 ... Z = 35, written as two decimal digits; a digit stands for
    itself. *)
Definition numeral (c : N) : list Z :=
  if isUpper c then [(Z.of_N c - 55) / 10; (Z.of_N c - 55) mod 10]
  else [digitValue c].

Definition mod97 (digits : list Z) : Z :=
  fold_left (fun remainder digit => (remainder * 10 + digit) mod 97)
    digits 0.

(** The number a list of decimal digits denotes. *)
Definition decimal (digits : list Z) : Z :=
  fold_left (fun n digit => n * 10 + digit) digits 0.

Definition ValidIBAN (toUpperCase : jsstring -> jsstring)
  (countryCodes : list jsstring) (s : jsstring) : Prop :=
  let cleaned := toUpperCase (stripSpaces s) in
  (15 <= length cleaned <= 34)%nat /\
  Forall IsLetter (firstn 2 cleaned) /\
  Forall IsDigit (firstn 2 (skipn 2 cleaned)) /\
  Forall IsAlphanumeric (skipn 4 cleaned) /\
  In (firstn 2 cleaned) countryCodes /\
  mod97 (flat_map numeral (skipn 4 cleaned ++ firstn 4 cleaned)) = 1.

(** *** 4.1, the candidate regional codes as the specification words
    them: the registry entries whose code starts with the given
    state number. *)
Definition statePrefixBufas (BUFA_MAP : registry) (stateNumber : jsstring)
  : list jsstring :=
  List.map fst
    (filter (fun e => str_eqb (substring 0 2 (fst e)) stateNumber) BUFA_MAP).

(** *** 8, the old-format projection of a canonical number: office
    number, district, sequence and check digit, without the state number
    and the filler. *)
Definition oldFormatProjection (canonical : jsstring) : jsstring :=
  substring 2 4 canonical ++ substring 5 13 canonical.

(** An 11-digit string with its 11th digit replaced. *)
Definition withEleventhDigit (d : jsstring) (x : N) : jsstring :=
  firstn 10 d ++ [x].

(** *** 8, formatting tolerance: [Inserted P s s'] when [s'] is [s] with
    code units satisfying [P] inserted at any positions. *)
Inductive Inserted (P : N -> bool) : jsstring -> jsstring -> Prop :=
| Inserted_nil : Inserted P [] []
| Inserted_keep c s s' : Inserted P s s' -> Inserted P (c :: s) (c :: s')
| Inserted_new c s s' : P c = true -> Inserted P s s' -> Inserted P s (c :: s').

(** Space, slash, hyphen. *)
Definition isFormatting (c : N) : bool :=
  (N.eqb c 32 || N.eqb c 47 || N.eqb c 45)%N.

Definition isBlank (c : N) : bool := N.eqb c 32.

End Spec.

(** ** Sample data for concrete runs *)

Module Sample.

(** [toUpperCase] on strings of ASCII code units. *)
Definition toUpperCaseASCII (s : jsstring) : jsstring :=
  List.map (fun c => if (N.leb 97 c && N.leb c 122)%N then (c - 32)%N else c) s.

(** Country codes the unit tests rely on. *)
Definition countryCodes : list jsstring :=
  [js "DE"; js "GB"; js "FR"; js "ES"; js "IT"].

(** The registry entry the unit tests name: BUFA 1116, Berlin,
    procedure BERLIN_A. *)
Definition berlin1116 : jsstring * FinanzamtInfo :=
  (js "1116", mkInfo (js "16") (js "BERLIN_A") (js "Berlin")).

Definition BUFA_MAP : registry := [berlin1116].

(** A registry with an office numbered 00. *)
Definition BUFA_MAP_office00 : registry :=
  [(js "1100", mkInfo (js "00") (js "BERLIN_A") (js "Berlin")); berlin1116].

End Sample.

(** ** The dispatcher of src/preset-validation.helper.ts *)

(** [console.warn] is the only effect of the module: the dispatcher returns
    its boolean together with the warnings it has issued.  [value] is a
    string, so [!value] holds exactly of the empty one. *)
Definition runValidationPreset (BUFA_MAP : registry)
  (toUpperCase : jsstring -> jsstring) (countryCodes : list jsstring)
  (presetKey value : jsstring) : bool * list jsstring :=
  match value with
  | [] => (false, [])
  | _ =>
      if str_eqb presetKey (js "taxId") then (validateGermanTaxId value, [])
      else if str_eqb presetKey (js "iban") then
        (validateIBAN toUpperCase countryCodes value, [])
      else if str_eqb presetKey (js "bic") then
        (validateBIC toUpperCase countryCodes value, [])
      else if str_eqb presetKey (js "taxNumber") then
        (validateGermanTaxNumber BUFA_MAP value, [])
      else
        (false,
         [js "[runValidationPreset] Unknown validation preset: "
          ++ [34%N] ++ presetKey ++ [34%N]])
  end.

(** ** Further reference definitions *)

Module Reference.

(** *** 4.2, the weighted procedures: the sum of digit times weight,
    reduced modulo 11 and then modulo 10. *)
Fixpoint weightedSum (weights body : list Z) : Z :=
  match weights, body with
  | w :: weights', d :: body' => d * w + weightedSum weights' body'
  | _, _ => 0
  end.

Definition weightedCheck (weights body : list Z) : Z :=
  (weightedSum weights body mod 11) mod 10.

(** The check digit of a body under a named procedure; an unrecognized
    name is the standard procedure. *)
Definition procedureCheck (name : jsstring) (body : list Z) : Z :=
  if str_eqb name (js "BERLIN_A") then
    weightedCheck [0; 0; 0; 0; 0; 7; 6; 5; 8; 4; 3; 2] body
  else if str_eqb name (js "BERLIN_B") then
    weightedCheck [0; 0; 2; 9; 0; 8; 7; 6; 5; 4; 3; 2] body
  else if str_eqb name (js "NRW") then
    weightedCheck [0; 3; 2; 1; 0; 7; 6; 5; 4; 3; 2; 1] body
  else Spec.standardCheck body.

(** A registry as the data model describes it: the codes are four decimal
    digits, and an entry carries the office number of its code. *)
Definition wellFormed (m : registry) : Prop :=
  Forall
    (fun e =>
       length (fst e) = 4%nat
       /\ forallb isDigit (fst e) = true
       /\ finanzamtsnummer (snd e) = substring 2 4 (fst e))
    m.

(** Whether the loop of the 10- and 11-digit validators returns at the
    candidate [b]. *)
Definition candidatePasses (m : registry) (d b : jsstring) : bool :=
  match normalizeTo13Digits d b, lookup m b with
  | Some c, Some info => truthy (Some c) && validatePruefziffer c info
  | _, _ => false
  end.

(** A 12-digit number with the filler inserted after its regional code. *)
Definition withFiller (d : jsstring) : jsstring :=
  firstn 4 d ++ [48%N] ++ skipn 4 d.

Definition reasonIs (r : Result) (why : jsstring) : bool :=
  match reason r with
  | Some w => str_eqb w why
  | None => false
  end.

(** *** 4.6, the BIC *)
Definition ValidBIC (toUpperCase : jsstring -> jsstring)
  (countryCodes : list jsstring) (s : jsstring) : Prop :=
  let cleaned := toUpperCase (stripSpaces s) in
  (length cleaned = 8%nat \/ length cleaned = 11%nat) /\
  Forall Spec.IsLetter (firstn 4 cleaned) /\
  Forall Spec.IsLetter (firstn 2 (skipn 4 cleaned)) /\
  Forall Spec.IsAlphanumeric (skipn 6 cleaned) /\
  In (firstn 2 (skipn 4 cleaned)) countryCodes.

End Reference.

(** * Properties *)

(** ** Facts about the primitives *)

Lemma str_eqb_eq (a b : jsstring) : str_eqb a b = true <-> a = b.
Proof.
  revert b; induction a as [|x a IH]; intros [|y b]; simpl;
    try (split; [discriminate | congruence]); try tauto.
  rewrite andb_true_iff, N.eqb_eq, IH.
  split; [intros [-> ->]; reflexivity | intros E; inversion E; auto].
Qed.

Lemma str_eqb_refl (a : jsstring) : str_eqb a a = true.
Proof. apply str_eqb_eq; reflexivity. Qed.

Lemma str_eqb_neq (a b : jsstring) : a <> b -> str_eqb a b = false.
Proof.
  intros H; destruct (str_eqb a b) eqn:E; [|reflexivity].
  apply str_eqb_eq in E; contradiction.
Qed.

Lemma isDigit_spec (c : N) : isDigit c = true <-> Spec.IsDigit c.
Proof.
  unfold isDigit, Spec.IsDigit.
  rewrite andb_true_iff, !N.leb_le; tauto.
Qed.

Lemma isUpper_spec (c : N) : isUpper c = true <-> Spec.IsLetter c.
Proof.
  unfold isUpper, Spec.IsLetter.
  rewrite andb_true_iff, !N.leb_le; tauto.
Qed.

Lemma isUpperOrDigit_spec (c : N) :
  isUpperOrDigit c = true <-> Spec.IsAlphanumeric c.
Proof.
  unfold isUpperOrDigit, Spec.IsAlphanumeric.
  rewrite orb_true_iff, isDigit_spec, isUpper_spec; tauto.
Qed.

Lemma digitValue_range (c : N) :
  isDigit c = true -> 0 <= Spec.digitValue c <= 9.
Proof.
  intros H; apply isDigit_spec in H; unfold Spec.IsDigit, Spec.digitValue in *.
  lia.
Qed.

Lemma digit_not_space (c : N) : isDigit c = true -> isSpace c = false.
Proof.
  intros H; apply isDigit_spec in H; unfold Spec.IsDigit, isSpace in *.
  repeat (apply orb_false_iff; split);
    try (apply N.eqb_neq; lia);
    apply andb_false_iff; rewrite !N.leb_gt; lia.
Qed.

Lemma upper_not_digit (c : N) : isUpper c = true -> isDigit c = false.
Proof.
  intros H; apply isUpper_spec in H; unfold Spec.IsLetter, isDigit in *.
  apply andb_false_iff; rewrite !N.leb_gt; lia.
Qed.

Lemma forallb_Forall_digit (s : jsstring) :
  forallb isDigit s = true <-> Forall Spec.IsDigit s.
Proof.
  rewrite forallb_forall, Forall_forall.
  split; intros H x Hx; apply isDigit_spec; auto.
Qed.

(** White space at either end is white space anywhere: after the global
    replacement, [trim] has made no difference. *)
Lemma stripSpaces_trimStart (s : jsstring) :
  stripSpaces (trimStart s) = stripSpaces s.
Proof.
  induction s as [|c s IH]; simpl; [reflexivity|].
  destruct (isSpace c) eqn:E; simpl; rewrite ?E; simpl; auto.
Qed.

Lemma stripSpaces_rev (s : jsstring) :
  stripSpaces (rev s) = rev (stripSpaces s).
Proof.
  unfold stripSpaces; induction s as [|c s IH]; simpl; [reflexivity|].
  rewrite filter_app, IH; simpl.
  destruct (negb (isSpace c)); simpl; [reflexivity | apply app_nil_r].
Qed.

Lemma stripSpaces_trim (s : jsstring) : stripSpaces (trim s) = stripSpaces s.
Proof.
  unfold trim.
  rewrite stripSpaces_rev, stripSpaces_trimStart, stripSpaces_rev,
    stripSpaces_trimStart.
  apply rev_involutive.
Qed.

Lemma stripNonDigits_digits (s : jsstring) :
  forallb isDigit s = true -> stripNonDigits s = s.
Proof.
  unfold stripNonDigits; induction s as [|c s IH]; simpl; [reflexivity|].
  rewrite andb_true_iff; intros [-> H]; rewrite IH; auto.
Qed.

Lemma NumberAt_digit (s : jsstring) (i : nat) (c : N) :
  nth_error s i = Some c -> isDigit c = true ->
  NumberAt s i = Some (Spec.digitValue c).
Proof. unfold NumberAt; intros -> ->; reflexivity. Qed.

(** ** The standard checksum procedure *)

(** The reduction of the code, [(p % 10) + 1], is the digit sum, and is
    [p - 9], on every product above 9 of a digit and a weight 1 or 2. *)
Lemma reduction_is_digit_sum (p : Z) :
  9 < p <= 18 ->
  Z.rem p 10 + 1 = Spec.digitSum p /\ Spec.digitSum p = p - 9.
Proof.
  intros H; unfold Spec.digitSum.
  rewrite Z.rem_mod_nonneg by lia.
  Z.div_mod_to_equations; lia.
Qed.

Lemma code_adjust (v w : Z) :
  0 <= v <= 9 -> 1 <= w <= 2 ->
  (if 9 <? v * w then Some (Z.rem (v * w) 10 + 1) else Some (v * w))
  = Some (Spec.standardAdjust (v * w)).
Proof.
  intros Hv Hw; unfold Spec.standardAdjust.
  destruct (9 <? v * w) eqn:E; [|reflexivity].
  apply Z.ltb_lt in E.
  f_equal; apply reduction_is_digit_sum; nia.
Qed.

Lemma thirteen (A : Type) (s : list A) :
  length s = 13%nat ->
  exists c0 c1 c2 c3 c4 c5 c6 c7 c8 c9 c10 c11 c12,
    s = [c0; c1; c2; c3; c4; c5; c6; c7; c8; c9; c10; c11; c12].
Proof.
  intros H.
  do 13 (destruct s as [|? s]; [discriminate H|]).
  destruct s; [|discriminate H].
  repeat eexists.
Qed.

Lemma pruefzifferBayern_standard (s : jsstring) :
  length s = 13%nat -> forallb isDigit s = true ->
  pruefzifferBayern s
  = Some (Spec.standardCheck (Spec.digitValues (firstn 12 s))).
Proof.
  intros L D.
  destruct (thirteen _ s L)
    as (c0 & c1 & c2 & c3 & c4 & c5 & c6 & c7 & c8 & c9 & c10 & c11 & c12 & ->).
  cbn [forallb] in D.
  repeat (apply andb_true_iff in D; destruct D as [?D D]).
  unfold pruefzifferBayern.
  cbn [seq fold_left].
  repeat
    match goal with
    | |- context [NumberAt ?l ?i] =>
        rewrite (NumberAt_digit l i _ eq_refl) by assumption
    end.
  cbn [weightAt nth_error mul lift2 add].
  unfold number.
  repeat
    match goal with
    | |- context [if 9 <? Spec.digitValue ?c * ?w then _ else _] =>
        rewrite (code_adjust (Spec.digitValue c) w)
          by (try apply digitValue_range; auto; lia)
    end.
  cbn [add lift2 sub rem].
  cbn [firstn Spec.digitValues List.map].
  unfold Spec.standardCheck.
  cbn [Spec.standardSum Spec.standardWeight Nat.even].
  assert (B : forall c w, isDigit c = true -> 1 <= w <= 2 ->
                     0 <= Spec.standardAdjust (Spec.digitValue c * w)).
  { intros c w Hc Hw. pose proof (digitValue_range c Hc).
    unfold Spec.standardAdjust.
    destruct (9 <? _) eqn:E; [|nia].
    apply Z.ltb_lt in E.
    destruct (reduction_is_digit_sum (Spec.digitValue c * w)) as [_ ->]; nia. }
  match goal with
  | |- context [Z.rem ?x 10] =>
      assert (0 <= x) by
        (repeat apply Z.add_nonneg_nonneg; try lia; apply B; auto; lia);
      set (total := x) in *
  end.
  match goal with
  | |- context [?y mod 10] => replace y with total by (subst total; ring)
  end.
  change (10 =? 0) with false; cbv iota.
  unfold rem; change (10 =? 0) with false; cbv iota.
  rewrite (Z.rem_mod_nonneg total 10) by lia.
  pose proof (Z.mod_pos_bound total 10 ltac:(lia)).
  rewrite Z.rem_mod_nonneg by lia.
  reflexivity.
Qed.

Lemma standardValid_code (s : jsstring) :
  length s = 13%nat -> forallb isDigit s = true ->
  strictEq (pruefzifferBayern s) (NumberAt s 12) = Spec.standardValid s.
Proof.
  intros L D.
  rewrite (pruefzifferBayern_standard s L D).
  destruct (thirteen _ s L)
    as (c0 & c1 & c2 & c3 & c4 & c5 & c6 & c7 & c8 & c9 & c10 & c11 & c12 & ->).
  assert (D12 : isDigit c12 = true).
  { rewrite forallb_forall in D; apply D; simpl; tauto. }
  match goal with
  | |- context [NumberAt ?l 12] =>
      rewrite (NumberAt_digit l 12 c12 eq_refl D12)
  end.
  reflexivity.
Qed.

(** C6: for a 13-digit canonical string and a procedure name that is none of
    BERLIN_A, BERLIN_B, BAYERN_11ER and NRW, [validatePruefziffer] decides
    exactly what the reference "standard" procedure decides (weights 1 and 2
    alternating, products above 9 replaced by their digit sum, check digit
    (10 - sum mod 10) mod 10 compared with the 13th digit); and on every
    product above 9 of a digit and 2 the reduction of the code,
    [(p % 10) + 1], is the digit sum, which is [p - 9]. *)
Theorem C6_unnamed_procedure_is_standard
  (elster13 : jsstring) (info : FinanzamtInfo) :
  length elster13 = 13%nat ->
  forallb isDigit elster13 = true ->
  verfahren info <> js "BERLIN_A" ->
  verfahren info <> js "BERLIN_B" ->
  verfahren info <> js "BAYERN_11ER" ->
  verfahren info <> js "NRW" ->
  validatePruefziffer elster13 info = Spec.standardValid elster13
  /\ (forall d, 0 <= d <= 9 -> 9 < d * 2 ->
        Z.rem (d * 2) 10 + 1 = Spec.digitSum (d * 2)
        /\ Spec.digitSum (d * 2) = d * 2 - 9).
Proof.
  intros L D HA HB HY HN; split.
  - unfold validatePruefziffer.
    rewrite (str_eqb_neq _ _ HA), (str_eqb_neq _ _ HB), (str_eqb_neq _ _ HY),
      (str_eqb_neq _ _ HN).
    apply standardValid_code; assumption.
  - intros d Hd H9; apply reduction_is_digit_sum; lia.
Qed.

Lemma C6_witness :
  validatePruefziffer (js "2866081508156")
    (mkInfo (js "66") (js "STANDARD") (js "Baden-Wuerttemberg"))
  = Spec.standardValid (js "2866081508156")
  /\ (forall d, 0 <= d <= 9 -> 9 < d * 2 ->
        Z.rem (d * 2) 10 + 1 = Spec.digitSum (d * 2)
        /\ Spec.digitSum (d * 2) = d * 2 - 9).
Proof.
  apply (C6_unnamed_procedure_is_standard (js "2866081508156")
           (mkInfo (js "66") (js "STANDARD") (js "Baden-Wuerttemberg")));
    try reflexivity; simpl; discriminate.
Defined.

(** ** The tax ID *)

Lemma taxIdStep_range (p d : Z) :
  1 <= p <= 10 -> 0 <= d <= 9 -> 1 <= Spec.taxIdStep p d <= 10.
Proof.
  intros Hp Hd; unfold Spec.taxIdStep.
  pose proof (Z.mod_pos_bound (d + p) 10 ltac:(lia)) as Hs.
  destruct ((d + p) mod 10 =? 0) eqn:E.
  - change (1 <= 9 <= 10); lia.
  - apply Z.eqb_neq in E.
    set (sum := (d + p) mod 10) in *.
    Z.div_mod_to_equations; lia.
Qed.

Lemma taxIdLoopBody_spec (p : Z) (c : N) :
  1 <= p <= 10 -> isDigit c = true ->
  taxIdLoopBody (Some p) c = Some (Spec.taxIdStep p (Spec.digitValue c)).
Proof.
  intros Hp Hc; pose proof (digitValue_range c Hc) as Hd.
  unfold taxIdLoopBody, parseInt, Spec.taxIdStep; rewrite Hc.
  fold (Spec.digitValue c).
  cbn [add lift2 rem]; change (10 =? 0) with false; cbv iota.
  rewrite Z.rem_mod_nonneg by lia.
  pose proof (Z.mod_pos_bound (Spec.digitValue c + p) 10 ltac:(lia)) as Hs.
  cbn [strictEq].
  destruct ((Spec.digitValue c + p) mod 10 =? 0);
    cbn [mul lift2 rem]; change (11 =? 0) with false; cbv iota;
    rewrite Z.rem_mod_nonneg by lia; reflexivity.
Qed.

Lemma taxIdLoop_spec (ds : jsstring) (p : Z) :
  1 <= p <= 10 -> forallb isDigit ds = true ->
  fold_left taxIdLoopBody ds (Some p)
  = Some (fold_left Spec.taxIdStep (Spec.digitValues ds) p)
  /\ 1 <= fold_left Spec.taxIdStep (Spec.digitValues ds) p <= 10.
Proof.
  revert p; induction ds as [|c ds IH]; intros p Hp D; simpl.
  - split; [reflexivity | lia].
  - simpl in D; apply andb_true_iff in D; destruct D as [Hc D].
    rewrite (taxIdLoopBody_spec p c Hp Hc).
    apply IH; [|assumption].
    apply taxIdStep_range; [assumption | apply digitValue_range; assumption].
Qed.

Lemma calculateTaxIdCheckDigit_spec (ds : jsstring) :
  forallb isDigit ds = true ->
  calculateTaxIdCheckDigit ds
  = Some (Spec.taxIdCheckDigit (Spec.digitValues ds)).
Proof.
  intros D.
  destruct (taxIdLoop_spec ds 10 ltac:(lia) D) as [E R].
  unfold calculateTaxIdCheckDigit, Spec.taxIdCheckDigit.
  change (fold_left _ ds (Some 10)) with (fold_left taxIdLoopBody ds (Some 10)).
  rewrite E; cbn [sub lift2 strictEq].
  set (product := fold_left Spec.taxIdStep (Spec.digitValues ds) 10) in *.
  rewrite (Z.mod_small (11 - product) 11) by lia.
  destruct (11 - product =? 10); reflexivity.
Qed.

Lemma eleven (A : Type) (s : list A) :
  length s = 11%nat ->
  exists c0 c1 c2 c3 c4 c5 c6 c7 c8 c9 c10,
    s = [c0; c1; c2; c3; c4; c5; c6; c7; c8; c9; c10].
Proof.
  intros H.
  do 11 (destruct s as [|? s]; [discriminate H|]).
  destruct s; [|discriminate H].
  repeat eexists.
Qed.

Lemma validateGermanTaxId_iff (s : jsstring) :
  validateGermanTaxId s = true <-> Spec.ValidTaxId s.
Proof.
  unfold validateGermanTaxId, Spec.ValidTaxId.
  rewrite stripSpaces_trim.
  set (c := stripSpaces s).
  unfold elevenDigits.
  destruct (Nat.eqb (length c) 11) eqn:L.
  2:{ apply Nat.eqb_neq in L; simpl; split; [discriminate | tauto]. }
  apply Nat.eqb_eq in L.
  destruct (forallb isDigit c) eqn:D.
  2:{ simpl; split; [discriminate|].
      intros (_ & F & _); apply forallb_Forall_digit in F; congruence. }
  cbn [andb negb].
  destruct (eleven _ c L)
    as (c0 & c1 & c2 & c3 & c4 & c5 & c6 & c7 & c8 & c9 & c10 & E).
  rewrite E in *.
  assert (D10 : isDigit c10 = true).
  { rewrite forallb_forall in D; apply D; simpl; tauto. }
  assert (Dmain :
            forallb isDigit [c0; c1; c2; c3; c4; c5; c6; c7; c8; c9] = true).
  { apply forallb_forall; intros x Hx.
    rewrite forallb_forall in D; apply D; simpl in *; tauto. }
  change (substring 0 10 [c0; c1; c2; c3; c4; c5; c6; c7; c8; c9; c10])
    with [c0; c1; c2; c3; c4; c5; c6; c7; c8; c9].
  rewrite (calculateTaxIdCheckDigit_spec _ Dmain).
  cbn [charAt nth_error parseInt]; rewrite D10.
  fold (Spec.digitValue c10).
  cbn [strictEq]; rewrite Z.eqb_eq.
  cbn [Spec.digitValues List.map nth firstn].
  split.
  - intros H; repeat split; auto.
    apply forallb_Forall_digit; assumption.
  - intros (_ & _ & H); auto.
Qed.

Lemma mutated_check_digit (x : N) :
  validateGermanTaxId (js "8609574271" ++ [x]) = N.eqb x 57.
Proof.
  unfold validateGermanTaxId.
  rewrite stripSpaces_trim.
  unfold stripSpaces; rewrite filter_app.
  change (filter _ (js "8609574271")) with (js "8609574271").
  cbn [filter].
  destruct (isSpace x) eqn:S.
  - cbn [negb app].
    destruct (N.eqb x 57) eqn:E; [|reflexivity].
    apply N.eqb_eq in E; subst x; discriminate S.
  - cbn [negb].
    unfold elevenDigits; rewrite forallb_app; cbn [forallb].
    change (forallb isDigit (js "8609574271")) with true.
    change (length (js "8609574271" ++ [x])) with 11%nat.
    rewrite andb_true_r; cbn [andb Nat.eqb].
    destruct (isDigit x) eqn:D; cbn [negb].
    + change (substring 0 10 (js "8609574271" ++ [x])) with (js "8609574271").
      change (charAt 10 (js "8609574271" ++ [x])) with [x].
      change (calculateTaxIdCheckDigit (js "8609574271")) with (Some 9).
      cbn [parseInt]; rewrite D; cbn [strictEq].
      apply isDigit_spec in D; unfold Spec.IsDigit in D.
      destruct (N.eqb x 57) eqn:E.
      * apply N.eqb_eq in E; subst x; reflexivity.
      * apply N.eqb_neq in E; apply Z.eqb_neq; lia.
    + destruct (N.eqb x 57) eqn:E; [|reflexivity].
      apply N.eqb_eq in E; subst x; discriminate D.
Qed.

(** C7: [validateGermanTaxId] accepts exactly the strings that, with white
    space removed, are 11 decimal digits whose 11th digit is the check digit
    the iterative algorithm of the specification computes from the first
    ten; the check digit of "8609574271" is 9, "86095742719" is accepted,
    and with any other code unit in the 11th place it is rejected. *)
Theorem C7_validateGermanTaxId_spec :
  (forall s, validateGermanTaxId s = true <-> Spec.ValidTaxId s)
  /\ calculateTaxIdCheckDigit (js "8609574271") = Some 9
  /\ Spec.taxIdCheckDigit (Spec.digitValues (js "8609574271")) = 9
  /\ validateGermanTaxId (js "86095742719") = true
  /\ (forall x, validateGermanTaxId (js "8609574271" ++ [x]) = N.eqb x 57).
Proof.
  split; [exact validateGermanTaxId_iff|].
  split; [reflexivity|].
  split; [reflexivity|].
  split; [reflexivity|].
  exact mutated_check_digit.
Qed.

(** ** The IBAN *)

Lemma includes_In (validCodes : list jsstring) (code : jsstring) :
  includes validCodes code = true <-> In code validCodes.
Proof.
  unfold includes; rewrite existsb_exists; split.
  - intros (x & Hx & E); apply str_eqb_eq in E; subst; assumption.
  - intros H; exists code; split; [assumption | apply str_eqb_refl].
Qed.

Lemma forallb_Forall_alnum (s : jsstring) :
  forallb isUpperOrDigit s = true <-> Forall Spec.IsAlphanumeric s.
Proof.
  rewrite forallb_forall, Forall_forall.
  split; intros H x Hx; apply isUpperOrDigit_spec; auto.
Qed.

Lemma ibanFormat_iff (c : jsstring) :
  (5 <= length c)%nat ->
  ibanFormat c = true <->
  Forall Spec.IsLetter (firstn 2 c)
  /\ Forall Spec.IsDigit (firstn 2 (skipn 2 c))
  /\ Forall Spec.IsAlphanumeric (skipn 4 c).
Proof.
  intros L.
  do 5 (destruct c as [|? c]; [simpl in L; lia|]).
  cbn [ibanFormat firstn skipn].
  rewrite !andb_true_iff, forallb_Forall_alnum, !isUpper_spec, !isDigit_spec.
  rewrite !Forall_cons_iff.
  pose proof (Forall_nil Spec.IsLetter); pose proof (Forall_nil Spec.IsDigit).
  tauto.
Qed.

Lemma ibanLoopBody_digit (r d : Z) (c : N) :
  0 <= r -> 0 <= d -> parseInt [c] = Some d ->
  ibanLoopBody (Some r) c = Some ((r * 10 + d) mod 97).
Proof.
  intros Hr Hd P; unfold ibanLoopBody; rewrite P.
  cbn [mul add lift2 rem]; change (97 =? 0) with false; cbv iota.
  rewrite Z.rem_mod_nonneg by lia; reflexivity.
Qed.

Lemma parseInt_digit_char (d : Z) :
  0 <= d <= 9 -> parseInt [Z.to_N (48 + d)] = Some d.
Proof.
  intros H; unfold parseInt.
  assert (D : isDigit (Z.to_N (48 + d)) = true)
    by (apply isDigit_spec; unfold Spec.IsDigit; lia).
  rewrite D; f_equal; lia.
Qed.

(** On a rearranged string of capital letters and digits, the loop of the
    code over [numericString] is the accumulation of the specification over
    the numerals. *)
Lemma ibanLoop_spec (l : jsstring) (r : Z) :
  0 <= r -> forallb isUpperOrDigit l = true ->
  fold_left ibanLoopBody
    (flat_map (fun char => if isUpper char then toString2 (Z.of_N char - 55)
                           else [char]) l)
    (Some r)
  = Some (fold_left (fun remainder digit => (remainder * 10 + digit) mod 97)
            (flat_map Spec.numeral l) r).
Proof.
  revert r; induction l as [|c l IH]; intros r Hr A; [reflexivity|].
  cbn [forallb] in A; apply andb_true_iff in A; destruct A as [Hc A].
  cbn [flat_map]; rewrite !fold_left_app.
  assert (Nc : Spec.numeral c
               = if isUpper c
                 then [(Z.of_N c - 55) / 10; (Z.of_N c - 55) mod 10]
                 else [Spec.digitValue c]) by reflexivity.
  rewrite Nc; clear Nc.
  destruct (isUpper c) eqn:U.
  - apply isUpper_spec in U; unfold Spec.IsLetter in U.
    set (v := Z.of_N c - 55) in *.
    assert (Hv : 10 <= v <= 35) by (subst v; lia).
    unfold toString2.
    destruct (v <? 10) eqn:E; [apply Z.ltb_lt in E; lia|].
    assert (H1 : 0 <= v / 10 <= 9) by (Z.div_mod_to_equations; lia).
    assert (H2 : 0 <= v mod 10 <= 9) by (Z.div_mod_to_equations; lia).
    cbn [fold_left].
    rewrite (ibanLoopBody_digit r (v / 10) _ Hr (proj1 H1)
               (parseInt_digit_char _ H1)).
    pose proof (Z.mod_pos_bound (r * 10 + v / 10) 97 ltac:(lia)) as B1.
    rewrite (ibanLoopBody_digit _ (v mod 10) _ (proj1 B1) (proj1 H2)
               (parseInt_digit_char _ H2)).
    apply IH; [|assumption].
    apply Z.mod_pos_bound; lia.
  - unfold isUpperOrDigit in Hc; rewrite U in Hc; cbn [orb] in Hc.
    pose proof (digitValue_range c Hc).
    cbn [fold_left].
    rewrite (ibanLoopBody_digit r (Spec.digitValue c) c Hr ltac:(lia)).
    + apply IH; [|assumption]. apply Z.mod_pos_bound; lia.
    + unfold parseInt; rewrite Hc; reflexivity.
Qed.

Lemma rearranged_alnum (c : jsstring) :
  ibanFormat c = true ->
  forallb isUpperOrDigit (substringFrom 4 c ++ sliceTo 4 c) = true.
Proof.
  intros F.
  do 5 (destruct c as [|? c]; [discriminate F|]).
  cbn [ibanFormat] in F.
  rewrite !andb_true_iff in F.
  destruct F as ((((Ha & Hb) & Hc) & Hd) & He).
  rewrite forallb_app; cbn [substringFrom sliceTo skipn firstn].
  apply andb_true_iff; split; [assumption|].
  cbn [forallb]; unfold isUpperOrDigit at 1 2 3 4.
  rewrite Ha, Hb, Hc, Hd, !orb_true_r; reflexivity.
Qed.

(** C10: [validateIBAN] accepts exactly the strings that, after removal of
    white space and uppercasing, have between 15 and 34 characters, consist
    of two letters, two digits and then letters and digits only, begin with
    a code of the country-code set, and leave remainder 1 modulo 97 when the
    first four characters are moved to the end, every letter is replaced by
    its two-digit numeral (A = 10 ... Z = 35) and the digits are accumulated
    one by one. *)
Theorem C10_validateIBAN_iff
  (toUpperCase : jsstring -> jsstring) (countryCodes : list jsstring)
  (s : jsstring) :
  validateIBAN toUpperCase countryCodes s = true
  <-> Spec.ValidIBAN toUpperCase countryCodes s.
Proof.
  unfold validateIBAN, Spec.ValidIBAN.
  rewrite stripSpaces_trim.
  set (c := toUpperCase (stripSpaces s)).
  destruct ((length c <? 15)%nat || (34 <? length c)%nat) eqn:L.
  { split; [discriminate|].
    intros (H & _); apply orb_true_iff in L.
    rewrite !Nat.ltb_lt in L; lia. }
  apply orb_false_iff in L; rewrite !Nat.ltb_ge in L.
  pose proof (ibanFormat_iff c ltac:(lia)) as F.
  destruct (ibanFormat c) eqn:Fc; cbn [negb].
  2:{ split; [discriminate|].
      intros (_ & H1 & H2 & H3 & _).
      assert (false = true) by (apply F; auto). discriminate. }
  assert (Sub : substring 0 2 c = firstn 2 c) by reflexivity.
  rewrite Sub.
  pose proof (includes_In countryCodes (firstn 2 c)) as I.
  destruct (includes countryCodes (firstn 2 c)) eqn:Ic; cbn [negb].
  2:{ split; [discriminate|].
      intros (_ & _ & _ & _ & H & _).
      assert (false = true) by (apply I; auto). discriminate. }
  change (fold_left _ ?l (Some 0)) with (fold_left ibanLoopBody l (Some 0)).
  rewrite (ibanLoop_spec _ 0 ltac:(lia) (rearranged_alnum c Fc)).
  cbn [strictEq]; rewrite Z.eqb_eq.
  unfold Spec.mod97, substringFrom, sliceTo.
  destruct F as [F _]; specialize (F eq_refl).
  destruct I as [I _]; specialize (I eq_refl).
  tauto.
Qed.

(** The accumulation is the remainder of the number the digits denote. *)
Lemma mod97_decimal (digits : list Z) :
  Spec.mod97 digits = Spec.decimal digits mod 97.
Proof.
  unfold Spec.mod97, Spec.decimal.
  assert (G : forall r n, r = n mod 97 ->
            fold_left (fun remainder digit => (remainder * 10 + digit) mod 97)
              digits r
            = fold_left (fun n digit => n * 10 + digit) digits n mod 97).
  { induction digits as [|d ds IH]; intros r n E; simpl; [assumption|].
    apply IH; subst r.
    rewrite <- (Z.add_mod_idemp_l (n mod 97 * 10)), Z.mul_mod_idemp_l by lia.
    rewrite Z.add_mod_idemp_l by lia; reflexivity. }
  apply G; reflexivity.
Qed.

(** ** The tax number: normalization and routing *)

Lemma stripNonDigits_idem (s : jsstring) :
  stripNonDigits (stripNonDigits s) = stripNonDigits s.
Proof.
  unfold stripNonDigits; apply forallb_filter_id, forallb_filter.
Qed.

Lemma normalizeSteuernummer_digits (input : jsstring) :
  normalizeSteuernummer input = normalizeSteuernummer (stripNonDigits input).
Proof.
  unfold normalizeSteuernummer.
  rewrite stripNonDigits_idem.
  destruct input as [|c input]; [reflexivity|].
  destruct (stripNonDigits (c :: input)) eqn:E; reflexivity.
Qed.

(** The outcome depends on the decimal digits of the input only. *)
Lemma validateSteuernummer_digits (BUFA_MAP : registry) (input : jsstring) :
  validateSteuernummer BUFA_MAP input
  = validateSteuernummer BUFA_MAP (stripNonDigits input).
Proof.
  unfold validateSteuernummer.
  rewrite <- normalizeSteuernummer_digits; reflexivity.
Qed.

Lemma normalizeSteuernummer_id (d : jsstring) :
  forallb isDigit d = true ->
  length d = 10%nat \/ length d = 11%nat \/ length d = 12%nat
  \/ length d = 13%nat ->
  normalizeSteuernummer d = d.
Proof.
  intros D L; unfold normalizeSteuernummer.
  rewrite (stripNonDigits_digits d D).
  destruct d as [|c d]; [reflexivity|].
  destruct L as [-> | [-> | [-> | ->]]]; reflexivity.
Qed.

Lemma validateSteuernummer_10 (BUFA_MAP : registry) (d : jsstring) :
  forallb isDigit d = true -> length d = 10%nat ->
  validateSteuernummer BUFA_MAP d = validate10DigitFormat BUFA_MAP d.
Proof.
  intros D L; unfold validateSteuernummer.
  rewrite (normalizeSteuernummer_id d D) by tauto.
  rewrite L; destruct d; [discriminate L | reflexivity].
Qed.

Lemma validateSteuernummer_11 (BUFA_MAP : registry) (d : jsstring) :
  forallb isDigit d = true -> length d = 11%nat ->
  validateSteuernummer BUFA_MAP d = validate11DigitFormat BUFA_MAP d.
Proof.
  intros D L; unfold validateSteuernummer.
  rewrite (normalizeSteuernummer_id d D) by tauto.
  rewrite L; destruct d; [discriminate L | reflexivity].
Qed.

Lemma validateSteuernummer_12 (BUFA_MAP : registry) (d : jsstring) :
  forallb isDigit d = true -> length d = 12%nat ->
  validateSteuernummer BUFA_MAP d = validate12DigitFormat BUFA_MAP d.
Proof.
  intros D L; unfold validateSteuernummer.
  rewrite (normalizeSteuernummer_id d D) by tauto.
  rewrite L; destruct d; [discriminate L | reflexivity].
Qed.

Lemma validateSteuernummer_13 (BUFA_MAP : registry) (d : jsstring) :
  forallb isDigit d = true -> length d = 13%nat ->
  validateSteuernummer BUFA_MAP d = validate13DigitFormat BUFA_MAP d.
Proof.
  intros D L; unfold validateSteuernummer.
  rewrite (normalizeSteuernummer_id d D) by tauto.
  rewrite L; destruct d; [discriminate L | reflexivity].
Qed.

Lemma bufa_of_13 (d : jsstring) :
  substring 0 2 d ++ substring 2 4 d = substring 0 4 d.
Proof.
  unfold substring; cbn [Nat.min Nat.max Nat.sub skipn].
  do 4 (destruct d as [|? d]; [reflexivity|]); reflexivity.
Qed.

(** ** The 13-digit path *)

(** C9: on a 13-digit input whose regional code, its first four digits, is
    in the registry, [validateSteuernummer] returns, when the checksum
    fails, valid:false with the reason 'Invalid Pruefziffer' and with bufa
    and bundesland filled in, and, when the checksum passes, valid:true with
    normalized equal to the input and with bufa and bundesland. *)
Theorem C9_thirteen_digit_outcome
  (BUFA_MAP : registry) (input : jsstring) (info : FinanzamtInfo) :
  length input = 13%nat ->
  forallb isDigit input = true ->
  lookup BUFA_MAP (substring 0 4 input) = Some info ->
  validateSteuernummer BUFA_MAP input
  = if validatePruefziffer input info
    then mkResult true (Some input) (Some (substring 0 4 input))
           (Some (Finanzamtsdaten.bundesland info)) None
    else mkResult false None (Some (substring 0 4 input))
           (Some (Finanzamtsdaten.bundesland info))
           (Some reason_invalid_pruefziffer).
Proof.
  intros L D K.
  rewrite (validateSteuernummer_13 BUFA_MAP input D L).
  unfold validate13DigitFormat.
  rewrite bufa_of_13, K.
  destruct (validatePruefziffer input info); reflexivity.
Qed.

Lemma C9_witness :
  validateSteuernummer Sample.BUFA_MAP (js "1116012345678")
  = mkResult true (Some (js "1116012345678")) (Some (js "1116"))
      (Some (js "Berlin")) None
  /\ validateSteuernummer Sample.BUFA_MAP (js "1116012345679")
     = mkResult false None (Some (js "1116")) (Some (js "Berlin"))
         (Some reason_invalid_pruefziffer).
Proof.
  split.
  - apply (C9_thirteen_digit_outcome Sample.BUFA_MAP (js "1116012345678")
             (snd Sample.berlin1116)); reflexivity.
  - apply (C9_thirteen_digit_outcome Sample.BUFA_MAP (js "1116012345679")
             (snd Sample.berlin1116)); reflexivity.
Defined.

(** ** All zeros *)

Lemma zeros_pass_every_procedure (info : FinanzamtInfo) :
  validatePruefziffer (repeat 48%N 13) info = true.
Proof.
  unfold validatePruefziffer.
  destruct (str_eqb (verfahren info) (js "BERLIN_A")); [reflexivity|].
  destruct (str_eqb (verfahren info) (js "BERLIN_B")); [reflexivity|].
  destruct (str_eqb (verfahren info) (js "BAYERN_11ER")); [reflexivity|].
  destruct (str_eqb (verfahren info) (js "NRW")); reflexivity.
Qed.

(** C2: thirteen zeros are never rejected as "all zeros".  The 10-, 11- and
    12-digit validators reject a string of zeros with the reason 'Tax number
    cannot be all zeros' before any registry lookup; the 13-digit validator
    has no such test: it rejects thirteen zeros as an unknown BUFA when the
    registry has no entry 0000, and accepts them, whatever the procedure,
    when it has one. *)
Theorem C2_thirteen_zeros_not_rejected_as_zeros (BUFA_MAP : registry) :
  validateSteuernummer BUFA_MAP (repeat 48%N 10) = invalid reason_all_zeros
  /\ validateSteuernummer BUFA_MAP (repeat 48%N 11) = invalid reason_all_zeros
  /\ validateSteuernummer BUFA_MAP (repeat 48%N 12) = invalid reason_all_zeros
  /\ validateSteuernummer BUFA_MAP (repeat 48%N 13)
     = match lookup BUFA_MAP (js "0000") with
       | None => invalid reason_unknown_bufa
       | Some info =>
           accepted (repeat 48%N 13) (js "0000")
             (Finanzamtsdaten.bundesland info)
       end.
Proof.
  repeat split; try reflexivity.
  rewrite validateSteuernummer_13 by reflexivity.
  unfold validate13DigitFormat.
  rewrite bufa_of_13.
  change (substring 0 4 (repeat 48%N 13)) with (js "0000").
  destruct (lookup BUFA_MAP (js "0000")) as [info|]; [|reflexivity].
  rewrite zeros_pass_every_procedure; reflexivity.
Qed.

(** ** The synthesized canonical form *)

Lemma twelve (A : Type) (s : list A) :
  length s = 12%nat ->
  exists c0 c1 c2 c3 c4 c5 c6 c7 c8 c9 c10 c11,
    s = [c0; c1; c2; c3; c4; c5; c6; c7; c8; c9; c10; c11].
Proof.
  intros H.
  do 12 (destruct s as [|? s]; [discriminate H|]).
  destruct s; [|discriminate H].
  repeat eexists.
Qed.

Lemma ten (A : Type) (s : list A) :
  length s = 10%nat ->
  exists c0 c1 c2 c3 c4 c5 c6 c7 c8 c9,
    s = [c0; c1; c2; c3; c4; c5; c6; c7; c8; c9].
Proof.
  intros H.
  do 10 (destruct s as [|? s]; [discriminate H|]).
  destruct s; [|discriminate H].
  repeat eexists.
Qed.

Lemma four (A : Type) (s : list A) :
  length s = 4%nat -> exists b0 b1 b2 b3, s = [b0; b1; b2; b3].
Proof.
  intros H.
  do 4 (destruct s as [|? s]; [discriminate H|]).
  destruct s; [|discriminate H].
  repeat eexists.
Qed.

(** What [normalizeTo13Digits] builds from ten digits: state number of the
    candidate, the ten digits with a 0 after the second; the NRW split
    yields the same string. *)
Lemma normalizeTo13Digits_10 (d bufa : jsstring) :
  forallb isDigit d = true -> length d = 10%nat ->
  normalizeTo13Digits d bufa
  = Some (substring 0 2 bufa ++ firstn 2 d ++ [48%N] ++ skipn 2 d).
Proof.
  intros D L; unfold normalizeTo13Digits.
  rewrite (stripNonDigits_digits d D), L; cbn [Nat.eqb].
  destruct (ten _ d L)
    as (c0 & c1 & c2 & c3 & c4 & c5 & c6 & c7 & c8 & c9 & ->).
  destruct (str_eqb (substring 0 2 bufa) (js "05")); reflexivity.
Qed.

(** From eleven digits it builds one character more. *)
Lemma normalizeTo13Digits_11 (d bufa : jsstring) :
  forallb isDigit d = true -> length d = 11%nat ->
  normalizeTo13Digits d bufa
  = Some (substring 0 2 bufa ++ firstn 2 d ++ [48%N] ++ skipn 2 d).
Proof.
  intros D L; unfold normalizeTo13Digits.
  rewrite (stripNonDigits_digits d D), L; cbn [Nat.eqb].
  destruct (eleven _ d L)
    as (c0 & c1 & c2 & c3 & c4 & c5 & c6 & c7 & c8 & c9 & c10 & ->).
  destruct (str_eqb (substring 0 2 bufa) (js "05")); reflexivity.
Qed.

Lemma normalizeTo13Digits_12 (d bufa : jsstring) :
  forallb isDigit d = true -> length d = 12%nat ->
  normalizeTo13Digits d bufa = Some (firstn 4 d ++ [48%N] ++ skipn 4 d).
Proof.
  intros D L; unfold normalizeTo13Digits.
  rewrite (stripNonDigits_digits d D), L; cbn [Nat.eqb].
  destruct (twelve _ d L)
    as (c0 & c1 & c2 & c3 & c4 & c5 & c6 & c7 & c8 & c9 & c10 & c11 & ->).
  destruct (str_eqb (substring 0 2 bufa) (js "05")); reflexivity.
Qed.

(** C1: from an 11-digit input and a four-character regional code
    [normalizeTo13Digits] returns a string of 14 characters, not 13, in the
    NRW branch and in the other; from 10 and from 12 digits it returns 13
    characters. *)
Theorem C1_synthesized_length (input bufa : jsstring) :
  forallb isDigit input = true ->
  length bufa = 4%nat ->
  length input = 10%nat \/ length input = 11%nat \/ length input = 12%nat ->
  exists canonical,
    normalizeTo13Digits input bufa = Some canonical
    /\ length canonical = if Nat.eqb (length input) 11 then 14%nat else 13%nat.
Proof.
  intros D B L.
  destruct (four _ bufa B) as (b0 & b1 & b2 & b3 & ->).
  destruct L as [L | [L | L]].
  - rewrite (normalizeTo13Digits_10 input _ D L), L.
    destruct (ten _ input L)
      as (c0 & c1 & c2 & c3 & c4 & c5 & c6 & c7 & c8 & c9 & ->).
    eexists; split; reflexivity.
  - rewrite (normalizeTo13Digits_11 input _ D L), L.
    destruct (eleven _ input L)
      as (c0 & c1 & c2 & c3 & c4 & c5 & c6 & c7 & c8 & c9 & c10 & ->).
    eexists; split; reflexivity.
  - rewrite (normalizeTo13Digits_12 input _ D L), L.
    destruct (twelve _ input L)
      as (c0 & c1 & c2 & c3 & c4 & c5 & c6 & c7 & c8 & c9 & c10 & c11 & ->).
    eexists; split; reflexivity.
Qed.

Lemma C1_witness :
  exists canonical,
    normalizeTo13Digits (js "12345678901") (js "1116") = Some canonical
    /\ length canonical = 14%nat.
Proof.
  apply (C1_synthesized_length (js "12345678901") (js "1116"));
    [reflexivity | reflexivity | right; left; reflexivity].
Defined.

(** ** The candidate regional codes *)

Section Candidates.

Variable BUFA_MAP : registry.

Lemma findPossibleBufas_In (finanzamtNumber b : jsstring) :
  In b (findPossibleBufas BUFA_MAP finanzamtNumber)
  <-> exists info,
        In (b, info) BUFA_MAP /\ finanzamtsnummer info = finanzamtNumber.
Proof.
  unfold findPossibleBufas; rewrite in_map_iff; split.
  - intros ([k info] & E & H); simpl in E; subst k.
    apply filter_In in H; destruct H as [H F]; simpl in F.
    apply str_eqb_eq in F; eauto.
  - intros (info & H & F); exists (b, info); split; [reflexivity|].
    apply filter_In; split; [assumption|].
    simpl; apply str_eqb_eq; assumption.
Qed.

Lemma lookup_Some_In (b : jsstring) (info : FinanzamtInfo) :
  lookup BUFA_MAP b = Some info -> In (b, info) BUFA_MAP.
Proof.
  induction BUFA_MAP as [|[k i] m IH]; simpl; [discriminate|].
  destruct (str_eqb k b) eqn:E.
  - apply str_eqb_eq in E; subst k; intros [= ->]; left; reflexivity.
  - intros H; right; apply IH; assumption.
Qed.

Lemma In_lookup (b : jsstring) (info : FinanzamtInfo) :
  In (b, info) BUFA_MAP -> exists info', lookup BUFA_MAP b = Some info'.
Proof.
  induction BUFA_MAP as [|[k i] m IH]; simpl; [tauto|].
  intros [E | H].
  - inversion E; subst; rewrite str_eqb_refl; eauto.
  - destruct (str_eqb k b); eauto.
Qed.

(** Every candidate is a key of the registry: [BUFA_MAP[bufa]] is defined
    inside the loop. *)
Lemma findPossibleBufas_lookup (finanzamtNumber b : jsstring) :
  In b (findPossibleBufas BUFA_MAP finanzamtNumber) ->
  exists info, lookup BUFA_MAP b = Some info.
Proof.
  intros H; apply findPossibleBufas_In in H; destruct H as (info & H & _).
  eapply In_lookup; eassumption.
Qed.

Lemma findPossibleBufas_four (finanzamtNumber : jsstring) :
  fourCharacterCodes BUFA_MAP ->
  Forall (fun b => length b = 4%nat)
    (findPossibleBufas BUFA_MAP finanzamtNumber).
Proof.
  unfold fourCharacterCodes; rewrite !Forall_forall; intros W b H.
  apply findPossibleBufas_In in H; destruct H as (info & H & _).
  apply (W (b, info) H).
Qed.

(** The loop returns early with an accepted result only. *)
Lemma tryBufas_valid (d : jsstring) (candidates : list jsstring) (r : Result) :
  tryBufas BUFA_MAP d candidates = Some r -> valid r = true.
Proof.
  induction candidates as [|b rest IH]; simpl; [discriminate|].
  destruct (normalizeTo13Digits d b) as [c|]; [|assumption].
  destruct (truthy (Some c)); [|assumption].
  destruct (lookup BUFA_MAP b) as [info|]; [|assumption].
  destruct (validatePruefziffer c info); [|assumption].
  intros [= <-]; reflexivity.
Qed.

Lemma tryBufas_bufa (d : jsstring) (candidates : list jsstring) (r : Result) :
  tryBufas BUFA_MAP d candidates = Some r ->
  exists b, bufa r = Some b /\ In b candidates.
Proof.
  induction candidates as [|b rest IH]; simpl; [discriminate|].
  assert (R : tryBufas BUFA_MAP d rest = Some r ->
              exists b0, bufa r = Some b0 /\ (b = b0 \/ In b0 rest)).
  { intros H; destruct (IH H) as (b0 & ? & ?); eauto. }
  destruct (normalizeTo13Digits d b) as [c|]; [|assumption].
  destruct (truthy (Some c)); [|assumption].
  destruct (lookup BUFA_MAP b) as [info|]; [|assumption].
  destruct (validatePruefziffer c info); [|assumption].
  intros [= <-]; exists b; simpl; auto.
Qed.

(** A candidate whose synthesized form passes its checksum makes the loop
    return early, with that candidate or with an earlier one. *)
Lemma tryBufas_some (d : jsstring) (candidates : list jsstring)
  (b c : jsstring) (info : FinanzamtInfo) :
  In b candidates ->
  normalizeTo13Digits d b = Some c -> truthy (Some c) = true ->
  lookup BUFA_MAP b = Some info -> validatePruefziffer c info = true ->
  exists r, tryBufas BUFA_MAP d candidates = Some r.
Proof.
  intros H N T K V.
  induction candidates as [|b' rest IH]; simpl; [destruct H|].
  destruct H as [-> | H].
  - rewrite N, T, K, V; eauto.
  - specialize (IH H).
    destruct (normalizeTo13Digits d b') as [c'|]; [|assumption].
    destruct (truthy (Some c')); [|assumption].
    destruct (lookup BUFA_MAP b') as [info'|]; [|assumption].
    destruct (validatePruefziffer c' info'); eauto.
Qed.

(** C3: for an input of 10 or 11 digits, the regional codes the validator
    tries are the registry entries whose finanzamtsnummer field, the office
    number, equals the first two digits of the input: the validator
    decides on that list, and the code it reports on acceptance is one of
    them. *)
Theorem C3_candidates_by_office_number (d : jsstring) :
  forallb isDigit d = true ->
  length d = 10%nat \/ length d = 11%nat ->
  let candidates := findPossibleBufas BUFA_MAP (firstn 2 d) in
  (forall b, In b candidates
             <-> exists info, In (b, info) BUFA_MAP
                              /\ finanzamtsnummer info = firstn 2 d)
  /\ validateSteuernummer BUFA_MAP d
     = (if allZeros d then invalid reason_all_zeros
        else match candidates with
             | [] => invalid reason_unknown_finanzamt
             | _ => match tryBufas BUFA_MAP d candidates with
                    | Some r => r
                    | None => invalid reason_all_bufas_failed
                    end
             end)
  /\ (valid (validateSteuernummer BUFA_MAP d) = true ->
      exists b, bufa (validateSteuernummer BUFA_MAP d) = Some b
                /\ In b candidates).
Proof.
  intros D L candidates.
  split; [intros b; apply findPossibleBufas_In|].
  assert (E : validateSteuernummer BUFA_MAP d
              = (if allZeros d then invalid reason_all_zeros
                 else match candidates with
                      | [] => invalid reason_unknown_finanzamt
                      | _ => match tryBufas BUFA_MAP d candidates with
                             | Some r => r
                             | None => invalid reason_all_bufas_failed
                             end
                      end)).
  { destruct L as [L | L];
      [rewrite (validateSteuernummer_10 _ d D L); unfold validate10DigitFormat
      |rewrite (validateSteuernummer_11 _ d D L); unfold validate11DigitFormat];
      change (substring 0 2 d) with (firstn 2 d); fold candidates;
      destruct (allZeros d); try reflexivity;
      destruct candidates; reflexivity. }
  split; [exact E|].
  rewrite E.
  destruct (allZeros d); [discriminate|].
  destruct candidates as [|b0 rest] eqn:C; [discriminate|].
  destruct (tryBufas BUFA_MAP d (b0 :: rest)) as [r|] eqn:T; [|discriminate].
  intros _; eapply tryBufas_bufa; eassumption.
Qed.

End Candidates.

Lemma C3_witness :
  validateSteuernummer Sample.BUFA_MAP (js "1612345678")
  = match findPossibleBufas Sample.BUFA_MAP (js "16") with
    | [] => invalid reason_unknown_finanzamt
    | _ :: _ =>
        match
          tryBufas Sample.BUFA_MAP (js "1612345678")
            (findPossibleBufas Sample.BUFA_MAP (js "16"))
        with
        | Some r => r
        | None => invalid reason_all_bufas_failed
        end
    end.
Proof.
  exact (proj1 (proj2 (C3_candidates_by_office_number Sample.BUFA_MAP
                         (js "1612345678") eq_refl (or_introl eq_refl)))).
Defined.

(** Selecting by state-number prefix, as the specification words it, gives
    another set: the office number 16 of the input selects the entry 1116,
    which the prefix 16 does not select, and the number is accepted for it;
    the prefix 11 selects that entry where the code finds no candidate. *)
Lemma C3_counterexample :
  findPossibleBufas Sample.BUFA_MAP (substring 0 2 (js "1612345678"))
  = [js "1116"]
  /\ Spec.statePrefixBufas Sample.BUFA_MAP (substring 0 2 (js "1612345678"))
     = []
  /\ validateSteuernummer Sample.BUFA_MAP (js "1612345678")
     = accepted (js "1116012345678") (js "1116") (js "Berlin")
  /\ Spec.statePrefixBufas Sample.BUFA_MAP (substring 0 2 (js "1112345678"))
     = [js "1116"]
  /\ validateSteuernummer Sample.BUFA_MAP (js "1112345678")
     = invalid reason_unknown_finanzamt.
Proof. repeat split; reflexivity. Qed.

(** ** The last digit of an 11-digit input *)

Lemma NumberAt_firstn (n i : nat) (s : jsstring) :
  (i < n)%nat -> NumberAt (firstn n s) i = NumberAt s i.
Proof.
  intros H; unfold NumberAt; rewrite nth_error_firstn.
  apply Nat.ltb_lt in H; rewrite H; reflexivity.
Qed.

(** The checksum engine reads the characters 0 to 12 only. *)
Lemma validatePruefziffer_first13 (s : jsstring) (info : FinanzamtInfo) :
  validatePruefziffer (firstn 13 s) info = validatePruefziffer s info.
Proof.
  assert (B : substring 0 12 (firstn 13 s) = substring 0 12 s).
  { unfold substring; cbn [Nat.min Nat.max Nat.sub skipn].
    rewrite firstn_firstn; reflexivity. }
  assert (Y : pruefzifferBayern (firstn 13 s) = pruefzifferBayern s).
  { unfold pruefzifferBayern; cbn [seq fold_left].
    rewrite !NumberAt_firstn by lia; reflexivity. }
  unfold validatePruefziffer.
  rewrite B, Y, NumberAt_firstn by lia; reflexivity.
Qed.

Lemma validatePruefziffer_agree (s s' : jsstring) (info : FinanzamtInfo) :
  firstn 13 s = firstn 13 s' ->
  validatePruefziffer s info = validatePruefziffer s' info.
Proof.
  intros E.
  rewrite <- (validatePruefziffer_first13 s).
  rewrite <- (validatePruefziffer_first13 s').
  rewrite E; reflexivity.
Qed.

Section LastDigit.

Variable BUFA_MAP : registry.
Variable d : jsstring.
Variable x : N.

Hypothesis codes : fourCharacterCodes BUFA_MAP.
Hypothesis digits : forallb isDigit d = true.
Hypothesis eleven_digits : length d = 11%nat.
Hypothesis digit : isDigit x = true.

Lemma replaced_digits :
  forallb isDigit (Spec.withEleventhDigit d x) = true
  /\ length (Spec.withEleventhDigit d x) = 11%nat.
Proof.
  unfold Spec.withEleventhDigit.
  destruct (eleven _ d eleven_digits)
    as (c0 & c1 & c2 & c3 & c4 & c5 & c6 & c7 & c8 & c9 & c10 & E).
  rewrite E in *; cbn [firstn app]; split; [|reflexivity].
  cbn [forallb] in *.
  rewrite !andb_true_iff in *; rewrite digit; tauto.
Qed.

(** The two synthesized strings differ in their 14th character only. *)
Lemma synthesized_agree (b : jsstring) :
  length b = 4%nat ->
  exists c c',
    normalizeTo13Digits d b = Some c
    /\ normalizeTo13Digits (Spec.withEleventhDigit d x) b = Some c'
    /\ truthy (Some c) = true /\ truthy (Some c') = true
    /\ firstn 13 c = firstn 13 c'.
Proof.
  intros B.
  destruct replaced_digits as [D' L'].
  rewrite (normalizeTo13Digits_11 d b digits eleven_digits).
  rewrite (normalizeTo13Digits_11 (Spec.withEleventhDigit d x) b D' L').
  unfold Spec.withEleventhDigit.
  destruct (four _ b B) as (b0 & b1 & b2 & b3 & ->).
  destruct (eleven _ d eleven_digits)
    as (c0 & c1 & c2 & c3 & c4 & c5 & c6 & c7 & c8 & c9 & c10 & ->).
  do 2 eexists; repeat split; reflexivity.
Qed.

Lemma tryBufas_last_digit (candidates : list jsstring) :
  Forall (fun b => length b = 4%nat) candidates ->
  match tryBufas BUFA_MAP d candidates,
        tryBufas BUFA_MAP (Spec.withEleventhDigit d x) candidates with
  | Some r, Some r' => bufa r = bufa r' /\ bundesland r = bundesland r'
  | None, None => True
  | _, _ => False
  end.
Proof.
  induction 1 as [|b rest B _ IH]; simpl; [exact I|].
  destruct (synthesized_agree b B) as (c & c' & -> & -> & -> & -> & E).
  destruct (lookup BUFA_MAP b) as [info|]; [|exact IH].
  rewrite (validatePruefziffer_agree c c' info E).
  destruct (validatePruefziffer c' info); [|exact IH].
  split; reflexivity.
Qed.

(** C5: the 11th digit of an 11-digit input does not influence the valid
    flag nor the reason, provided the replacement does not turn a string of
    zeros into one that is not or the other way round: the all-zeros test
    reads every digit, the rest of the validator reads the first ten. *)
Theorem C5_last_digit_ignored :
  allZeros (Spec.withEleventhDigit d x) = allZeros d ->
  valid (validateSteuernummer BUFA_MAP (Spec.withEleventhDigit d x))
  = valid (validateSteuernummer BUFA_MAP d)
  /\ reason (validateSteuernummer BUFA_MAP (Spec.withEleventhDigit d x))
     = reason (validateSteuernummer BUFA_MAP d).
Proof.
  intros Z.
  destruct replaced_digits as [D' L'].
  rewrite (validateSteuernummer_11 _ d digits eleven_digits).
  rewrite (validateSteuernummer_11 _ (Spec.withEleventhDigit d x) D' L').
  unfold validate11DigitFormat; rewrite Z.
  destruct (allZeros d); [split; reflexivity|].
  assert (P : substring 0 2 (Spec.withEleventhDigit d x) = substring 0 2 d).
  { unfold Spec.withEleventhDigit.
    destruct (eleven _ d eleven_digits)
      as (c0 & c1 & c2 & c3 & c4 & c5 & c6 & c7 & c8 & c9 & c10 & ->).
    reflexivity. }
  rewrite P.
  set (candidates := findPossibleBufas BUFA_MAP (substring 0 2 d)).
  destruct (Nat.eqb (length candidates) 0); [split; reflexivity|].
  pose proof (tryBufas_last_digit candidates
                (findPossibleBufas_four BUFA_MAP _ codes)) as T.
  destruct (tryBufas BUFA_MAP d candidates) as [r|] eqn:Er;
    destruct (tryBufas BUFA_MAP (Spec.withEleventhDigit d x) candidates)
      as [r'|] eqn:Er';
    try contradiction; [|split; reflexivity].
  apply tryBufas_valid in Er as V; apply tryBufas_valid in Er' as V'.
  rewrite V, V'; split; [reflexivity|].
  clear - Er Er'.
  assert (A : forall e cs q,
             tryBufas BUFA_MAP e cs = Some q -> reason q = None).
  { intros e cs q; induction cs as [|b rest IH]; simpl; [discriminate|].
    destruct (normalizeTo13Digits e b) as [c|]; [|assumption].
    destruct (truthy (Some c)); [|assumption].
    destruct (lookup BUFA_MAP b) as [info|]; [|assumption].
    destruct (validatePruefziffer c info); [|assumption].
    intros [= <-]; reflexivity. }
  rewrite (A _ _ _ Er), (A _ _ _ Er'); reflexivity.
Qed.

End LastDigit.

Lemma C5_witness :
  valid (validateSteuernummer Sample.BUFA_MAP (js "16123456789"))
  = valid (validateSteuernummer Sample.BUFA_MAP (js "16123456780"))
  /\ reason (validateSteuernummer Sample.BUFA_MAP (js "16123456789"))
     = reason (validateSteuernummer Sample.BUFA_MAP (js "16123456780")).
Proof.
  apply (C5_last_digit_ignored Sample.BUFA_MAP (js "16123456780") 57%N);
    try reflexivity.
  repeat constructor.
Defined.

(** On a string of zeros the last digit does matter: replaced by 1, the
    reason changes. *)
Lemma C5_counterexample :
  reason (validateSteuernummer Sample.BUFA_MAP (js "00000000000"))
  = Some reason_all_zeros
  /\ Spec.withEleventhDigit (js "00000000000") 49%N = js "00000000001"
  /\ reason (validateSteuernummer Sample.BUFA_MAP (js "00000000001"))
     = Some reason_unknown_finanzamt.
Proof. repeat split; reflexivity. Qed.

(** ** Round trip through the old format *)

Section RoundTrip.

Variable BUFA_MAP : registry.
Variable n : jsstring.
Variable info : FinanzamtInfo.

Hypothesis thirteen_digits : length n = 13%nat.
Hypothesis digits : forallb isDigit n = true.
(** The filler of a canonical number is 0. *)
Hypothesis filler : nth_error n 4 = Some 48%N.
(** The region of [n] is registered, under its own office number. *)
Hypothesis region : lookup BUFA_MAP (substring 0 4 n) = Some info.
Hypothesis office : finanzamtsnummer info = substring 2 4 n.
Hypothesis checksum : validatePruefziffer n info = true.

Lemma projection_digits :
  forallb isDigit (Spec.oldFormatProjection n) = true
  /\ length (Spec.oldFormatProjection n) = 10%nat.
Proof.
  destruct (thirteen _ n thirteen_digits)
    as (c0 & c1 & c2 & c3 & c4 & c5 & c6 & c7 & c8 & c9 & c10 & c11 & c12 & E).
  rewrite E in *; split; [|reflexivity].
  cbn [forallb] in digits; rewrite !andb_true_iff in digits.
  unfold Spec.oldFormatProjection, substring;
    cbn [Nat.min Nat.max Nat.sub skipn firstn app forallb].
  rewrite !andb_true_iff; tauto.
Qed.

(** Re-expanding the projection for the originating region gives back
    the number. *)
Lemma projection_expands :
  normalizeTo13Digits (Spec.oldFormatProjection n) (substring 0 4 n) = Some n.
Proof.
  destruct projection_digits as [D L].
  rewrite (normalizeTo13Digits_10 _ _ D L).
  destruct (thirteen _ n thirteen_digits)
    as (c0 & c1 & c2 & c3 & c4 & c5 & c6 & c7 & c8 & c9 & c10 & c11 & c12 & E).
  rewrite E in *; cbn [nth_error] in filler.
  injection filler as ->; reflexivity.
Qed.

Lemma region_is_candidate :
  In (substring 0 4 n)
    (findPossibleBufas BUFA_MAP (substring 0 2 (Spec.oldFormatProjection n))).
Proof.
  apply findPossibleBufas_In; exists info; split.
  - apply lookup_Some_In; exact region.
  - rewrite office.
    destruct (thirteen _ n thirteen_digits)
      as (c0 & c1 & c2 & c3 & c4 & c5 & c6 & c7 & c8 & c9 & c10 & c11 & c12
          & ->).
    reflexivity.
Qed.

(** C8: a canonical 13-digit number that is valid for its region, the
    region being registered under its own office number, is recovered from
    its 10-digit old-format projection: the region is among the candidates,
    the form synthesized for it is the original number, it passes that
    region's checksum, and, unless the projection consists of zeros only,
    [validateSteuernummer] accepts the projection. *)
Theorem C8_old_format_round_trip :
  In (substring 0 4 n)
    (findPossibleBufas BUFA_MAP (substring 0 2 (Spec.oldFormatProjection n)))
  /\ normalizeTo13Digits (Spec.oldFormatProjection n) (substring 0 4 n)
     = Some n
  /\ validatePruefziffer n info = true
  /\ (allZeros (Spec.oldFormatProjection n) = false ->
      valid (validateSteuernummer BUFA_MAP (Spec.oldFormatProjection n))
      = true).
Proof.
  split; [exact region_is_candidate|].
  split; [exact projection_expands|].
  split; [exact checksum|].
  intros Z.
  destruct projection_digits as [D L].
  rewrite (validateSteuernummer_10 _ _ D L).
  unfold validate10DigitFormat; rewrite Z.
  pose proof region_is_candidate as C.
  set (candidates := findPossibleBufas BUFA_MAP _) in *.
  destruct candidates as [|b0 rest] eqn:Ec; [destruct C|].
  cbn [length Nat.eqb].
  assert (T : truthy (Some n) = true).
  { destruct n; [discriminate thirteen_digits | reflexivity]. }
  destruct (tryBufas_some BUFA_MAP _ (b0 :: rest) _ n info C
              projection_expands T region checksum) as (r & Er).
  rewrite Er; eapply tryBufas_valid; eassumption.
Qed.

End RoundTrip.

Lemma C8_witness :
  In (js "1116") (findPossibleBufas Sample.BUFA_MAP (js "16"))
  /\ normalizeTo13Digits (js "1612345678") (js "1116")
     = Some (js "1116012345678")
  /\ validatePruefziffer (js "1116012345678") (snd Sample.berlin1116) = true
  /\ valid (validateSteuernummer Sample.BUFA_MAP (js "1612345678")) = true.
Proof.
  destruct (C8_old_format_round_trip Sample.BUFA_MAP (js "1116012345678")
              (snd Sample.berlin1116) eq_refl eq_refl eq_refl eq_refl eq_refl
              eq_refl) as (H1 & H2 & H3 & H4).
  exact (conj H1 (conj H2 (conj H3 (H4 eq_refl)))).
Defined.

(** Without the proviso the round trip fails: 1100000000000 is valid for the
    region 1100 of a registry that has one, and its projection is rejected
    as a string of zeros. *)
Lemma C8_counterexample :
  validateSteuernummer Sample.BUFA_MAP_office00 (js "1100000000000")
  = accepted (js "1100000000000") (js "1100") (js "Berlin")
  /\ Spec.oldFormatProjection (js "1100000000000") = js "0000000000"
  /\ validateSteuernummer Sample.BUFA_MAP_office00 (js "0000000000")
     = invalid reason_all_zeros.
Proof. repeat split; reflexivity. Qed.

(** ** Formatting characters *)

Lemma Inserted_filter (P keep : N -> bool) (s s' : jsstring) :
  (forall c, P c = true -> keep c = false) ->
  Spec.Inserted P s s' -> filter keep s' = filter keep s.
Proof.
  intros H; induction 1 as [|c s s' _ IH|c s s' Pc _ IH]; simpl.
  - reflexivity.
  - rewrite IH; reflexivity.
  - rewrite (H c Pc); exact IH.
Qed.

Lemma formatting_not_digit (c : N) :
  Spec.isFormatting c = true -> isDigit c = false.
Proof.
  unfold Spec.isFormatting; rewrite !orb_true_iff, !N.eqb_eq.
  intros [[-> | ->] | ->]; reflexivity.
Qed.

Lemma blank_is_space (c : N) :
  Spec.isBlank c = true -> negb (isSpace c) = false.
Proof.
  unfold Spec.isBlank; rewrite N.eqb_eq; intros ->; reflexivity.
Qed.

(** C4: inserting spaces, slashes or hyphens anywhere into a string leaves
    the whole outcome of [validateSteuernummer] unchanged, and inserting
    spaces anywhere leaves [validateIBAN] and [validateBIC] unchanged. *)
Theorem C4_formatting_tolerance
  (BUFA_MAP : registry) (toUpperCase : jsstring -> jsstring)
  (countryCodes : list jsstring) (s s' t t' : jsstring) :
  Spec.Inserted Spec.isFormatting s s' ->
  Spec.Inserted Spec.isBlank t t' ->
  validateSteuernummer BUFA_MAP s' = validateSteuernummer BUFA_MAP s
  /\ validateIBAN toUpperCase countryCodes t'
     = validateIBAN toUpperCase countryCodes t
  /\ validateBIC toUpperCase countryCodes t'
     = validateBIC toUpperCase countryCodes t.
Proof.
  intros F B.
  split.
  - rewrite (validateSteuernummer_digits _ s').
    rewrite (validateSteuernummer_digits _ s).
    unfold stripNonDigits.
    rewrite (Inserted_filter _ _ _ _ formatting_not_digit F); reflexivity.
  - assert (E : stripSpaces (trim t') = stripSpaces (trim t)).
    { rewrite !stripSpaces_trim; unfold stripSpaces.
      apply (Inserted_filter _ _ _ _ blank_is_space B). }
    unfold validateIBAN, validateBIC; rewrite E; split; reflexivity.
Qed.

Lemma C4_witness :
  validateSteuernummer Sample.BUFA_MAP (js "11-16/012 345678")
  = validateSteuernummer Sample.BUFA_MAP (js "1116012345678")
  /\ validateIBAN Sample.toUpperCaseASCII Sample.countryCodes
       (js "DE89 3704 0044 0532 0130 00")
     = validateIBAN Sample.toUpperCaseASCII Sample.countryCodes
         (js "DE89370400440532013000")
  /\ validateBIC Sample.toUpperCaseASCII Sample.countryCodes
       (js "DE89 3704 0044 0532 0130 00")
     = validateBIC Sample.toUpperCaseASCII Sample.countryCodes
         (js "DE89370400440532013000").
Proof.
  apply (C4_formatting_tolerance Sample.BUFA_MAP Sample.toUpperCaseASCII
           Sample.countryCodes);
    repeat (first [ apply Spec.Inserted_nil
                  | apply Spec.Inserted_keep
                  | apply Spec.Inserted_new; [reflexivity|] ]).
Defined.

(** A hyphen or a slash in a valid IBAN or BIC makes it invalid. *)
Lemma C4_counterexample :
  Spec.Inserted Spec.isFormatting
    (js "DE89370400440532013000") (js "DE89370400440532013-000")
  /\ validateIBAN Sample.toUpperCaseASCII Sample.countryCodes
       (js "DE89370400440532013000") = true
  /\ validateIBAN Sample.toUpperCaseASCII Sample.countryCodes
       (js "DE89370400440532013-000") = false
  /\ Spec.Inserted Spec.isFormatting (js "DEUTDEFF") (js "DEUT/DEFF")
  /\ validateBIC Sample.toUpperCaseASCII Sample.countryCodes (js "DEUTDEFF")
     = true
  /\ validateBIC Sample.toUpperCaseASCII Sample.countryCodes (js "DEUT/DEFF")
     = false.
Proof.
  repeat split; try reflexivity;
    repeat (first [ apply Spec.Inserted_nil
                  | apply Spec.Inserted_keep
                  | apply Spec.Inserted_new; [reflexivity|] ]).
Qed.

(** ** The unit tests of the repository, replayed on the embedding *)

Example test_validateGermanTaxId :
  forallb (fun s => validateGermanTaxId (js s))
    ["12345678903"; "86095742719"; "01234567896"; "10000000000";
     "123 456 789 03"; "  12345678903  "]%string = true
  /\ existsb (fun s => validateGermanTaxId (js s))
       ["12345678901"; "1234567890"; "123456789012"; "1234567890A";
        "12345-67890"; ""]%string = false.
Proof. split; reflexivity. Qed.

Example test_validateIBAN :
  forallb
    (fun s => validateIBAN Sample.toUpperCaseASCII Sample.countryCodes (js s))
    ["DE89370400440532013000"; "DE44500105175407324931";
     "GB82WEST12345698765432"; "FR1420041010050500013M02606";
     "ES9121000418450200051332"; "IT60X0542811101000000123456";
     "DE89 3704 0044 0532 0130 00"; "GB82 WEST 1234 5698 7654 32";
     "de89370400440532013000"; "De89370400440532013000"]%string = true
  /\ existsb
       (fun s =>
          validateIBAN Sample.toUpperCaseASCII Sample.countryCodes (js s))
       ["DE89370400440532013001"; "GB82WEST12345698765433"; "DE123";
        "DE89370400440532013000123456789012345"; "1234567890123456";
        "DEAA370400440532013000"; "DE89370400440532013-00"; ""]%string
     = false.
Proof. split; reflexivity. Qed.

Example test_validateBIC :
  forallb
    (fun s => validateBIC Sample.toUpperCaseASCII Sample.countryCodes (js s))
    ["DEUTDEFF"; "COBADEFF"; "BYLADEM1"; "DEUTDEFF500"; "COBADEFFXXX";
     "BNPAFRPPXXX"; "DEUT DE FF"; "DEUT DE FF 500"; "deutdeff"; "DeUtDeFf";
     "DEUTDE5F"; "DEUTDE55"]%string = true
  /\ existsb
       (fun s => validateBIC Sample.toUpperCaseASCII Sample.countryCodes (js s))
       ["DEUT"; "DEUTDE"; "DEUTDEFF50"; "DEUTDEFF5000"; "12UTDEFF";
        "DEUT12FF"; "DEUTZZFF"; "DEUT-DEFF"; ""]%string = false.
Proof. split; reflexivity. Qed.

(** Whatever the registry holds, a wrong number of digits is reported as
    such. *)
Example test_validateSteuernummer_length (BUFA_MAP : registry) :
  forallb
    (fun s =>
       match reason (validateSteuernummer BUFA_MAP (js s)) with
       | Some why => str_eqb why reason_invalid_length_or_characters
       | None => false
       end)
    ["123456789"; "11160123456789"; ""; "-------------"; "123"]%string = true.
Proof. reflexivity. Qed.

Example test_validateSteuernummer_berlin :
  validateSteuernummer Sample.BUFA_MAP (js "11 16 / 012 / 34567 / 8")
  = accepted (js "1116012345678") (js "1116") (js "Berlin")
  /\ validateSteuernummer Sample.BUFA_MAP (js "9999012345678")
     = invalid reason_unknown_bufa
  /\ validateGermanTaxNumber Sample.BUFA_MAP (js "12345678901") = false.
Proof. repeat split; reflexivity. Qed.

(** * Further properties of the code *)

(** ** The checksum engine *)

Lemma strictEq_None_r (a : number) : strictEq a None = false.
Proof. destruct a; reflexivity. Qed.

Lemma computeWeightedCheckDigit_spec (body : jsstring) (multipliers : list Z) :
  length body = 12%nat -> forallb isDigit body = true ->
  length multipliers = 12%nat -> Forall (fun w => 0 <= w) multipliers ->
  computeWeightedCheckDigit body multipliers
  = Some (Reference.weightedCheck multipliers (Spec.digitValues body)).
Proof.
  intros L D LW W.
  destruct (twelve _ body L)
    as (c0 & c1 & c2 & c3 & c4 & c5 & c6 & c7 & c8 & c9 & c10 & c11 & ->).
  destruct (twelve _ multipliers LW)
    as (w0 & w1 & w2 & w3 & w4 & w5 & w6 & w7 & w8 & w9 & w10 & w11 & ->).
  cbn [forallb] in D.
  repeat (apply andb_true_iff in D; destruct D as [?D D]).
  repeat match goal with
         | H : Forall _ (_ :: _) |- _ =>
             apply Forall_cons_iff in H; destruct H as [?W H]
         end.
  unfold computeWeightedCheckDigit.
  cbn [seq fold_left].
  repeat
    match goal with
    | |- context [NumberAt ?l ?i] =>
        rewrite (NumberAt_digit l i _ eq_refl) by assumption
    end.
  cbn [weightAt nth_error mul lift2 add].
  unfold Reference.weightedCheck.
  cbn [Spec.digitValues List.map Reference.weightedSum].
  repeat match goal with
         | H : isDigit ?c = true |- _ =>
             apply digitValue_range in H
         end.
  match goal with
  | |- rem (rem (Some ?x) _) _ = _ =>
      assert (0 <= x) by
        (repeat apply Z.add_nonneg_nonneg; try lia;
         apply Z.mul_nonneg_nonneg; lia);
      set (total := x) in *
  end.
  match goal with
  | |- context [?y mod 11] => replace y with total by (subst total; ring)
  end.
  unfold rem; change (11 =? 0) with false; change (10 =? 0) with false;
    cbv iota.
  rewrite (Z.rem_mod_nonneg total 11) by lia.
  pose proof (Z.mod_pos_bound total 11 ltac:(lia)).
  rewrite Z.rem_mod_nonneg by lia.
  reflexivity.
Qed.

Lemma weights_nonneg :
  Forall (fun w => 0 <= w) BERLIN_A_MULTIPLIERS
  /\ Forall (fun w => 0 <= w) BERLIN_B_MULTIPLIERS
  /\ Forall (fun w => 0 <= w) [0; 3; 2; 1; 0; 7; 6; 5; 4; 3; 2; 1].
Proof. repeat split; repeat constructor; lia. Qed.

Lemma first12_of_13 (s : jsstring) :
  length s = 13%nat -> forallb isDigit s = true ->
  substring 0 12 s = firstn 12 s
  /\ length (firstn 12 s) = 12%nat
  /\ forallb isDigit (firstn 12 s) = true.
Proof.
  intros L D.
  destruct (thirteen _ s L)
    as (c0 & c1 & c2 & c3 & c4 & c5 & c6 & c7 & c8 & c9 & c10 & c11 & c12 & ->).
  cbn [forallb] in D; rewrite !andb_true_iff in D.
  repeat split.
  cbn [firstn forallb]; rewrite !andb_true_iff; tauto.
Qed.

Lemma NumberAt_12 (s : jsstring) :
  length s = 13%nat -> forallb isDigit s = true ->
  NumberAt s 12 = Some (nth 12 (Spec.digitValues s) (-1)).
Proof.
  intros L D.
  destruct (thirteen _ s L)
    as (c0 & c1 & c2 & c3 & c4 & c5 & c6 & c7 & c8 & c9 & c10 & c11 & c12 & ->).
  assert (D12 : isDigit c12 = true).
  { rewrite forallb_forall in D; apply D; simpl; tauto. }
  unfold NumberAt; cbn [nth_error]; rewrite D12; reflexivity.
Qed.

Lemma engine_reference (s : jsstring) (info : FinanzamtInfo) :
  length s = 13%nat -> forallb isDigit s = true ->
  validatePruefziffer s info
  = (Reference.procedureCheck (verfahren info)
       (Spec.digitValues (firstn 12 s))
     =? nth 12 (Spec.digitValues s) (-1)).
Proof.
  intros L D.
  destruct (first12_of_13 s L D) as (B & LB & DB).
  destruct weights_nonneg as (WA & WB & WN).
  unfold validatePruefziffer, Reference.procedureCheck.
  rewrite B, (NumberAt_12 s L D).
  destruct (str_eqb (verfahren info) (js "BERLIN_A")).
  { rewrite (computeWeightedCheckDigit_spec _ BERLIN_A_MULTIPLIERS LB DB
               eq_refl WA).
    reflexivity. }
  destruct (str_eqb (verfahren info) (js "BERLIN_B")).
  { rewrite (computeWeightedCheckDigit_spec _ BERLIN_B_MULTIPLIERS LB DB
               eq_refl WB).
    reflexivity. }
  destruct (str_eqb (verfahren info) (js "BAYERN_11ER")) eqn:E.
  { apply str_eqb_eq in E; rewrite E.
    rewrite (pruefzifferBayern_standard s L D); reflexivity. }
  destruct (str_eqb (verfahren info) (js "NRW")).
  { rewrite (computeWeightedCheckDigit_spec _
               [0; 3; 2; 1; 0; 7; 6; 5; 4; 3; 2; 1] LB DB eq_refl WN).
    reflexivity. }
  rewrite (pruefzifferBayern_standard s L D); reflexivity.
Qed.

(** On thirteen digits the engine computes, for each procedure name, the
    check digit of the reference procedure of that name (the weighted sums
    of BERLIN_A, BERLIN_B and NRW reduced modulo 11 and 10, the standard
    procedure for every other name) from the first twelve, and compares it
    with the thirteenth. *)
Theorem validatePruefziffer_reference (s : jsstring) (info : FinanzamtInfo) :
  length s = 13%nat -> forallb isDigit s = true ->
  validatePruefziffer s info
  = (Reference.procedureCheck (verfahren info)
       (Spec.digitValues (firstn 12 s))
     =? nth 12 (Spec.digitValues s) (-1)).
Proof. exact (engine_reference s info). Qed.

Lemma validatePruefziffer_reference_witness :
  validatePruefziffer (js "1116012345678") (snd Sample.berlin1116)
  = (Reference.procedureCheck (js "BERLIN_A")
       (Spec.digitValues (js "111601234567"))
     =? 8).
Proof.
  exact (validatePruefziffer_reference (js "1116012345678")
           (snd Sample.berlin1116) eq_refl eq_refl).
Defined.

Lemma procedureCheck_range (name : jsstring) (body : list Z) :
  0 <= Reference.procedureCheck name body <= 9.
Proof.
  unfold Reference.procedureCheck, Reference.weightedCheck, Spec.standardCheck.
  repeat match goal with
         | |- context [if ?b then _ else _] => destruct b
         end;
    match goal with
    | |- 0 <= ?x mod 10 <= 9 =>
        pose proof (Z.mod_pos_bound x 10 ltac:(lia)); lia
    end.
Qed.

(** Under every procedure, each body of twelve digits has exactly one
    check digit: the thirteenth digit is accepted if and only if it is the
    digit the procedure computes. *)
Theorem exactly_one_check_digit
  (body : jsstring) (x : N) (info : FinanzamtInfo) :
  length body = 12%nat -> forallb isDigit body = true -> isDigit x = true ->
  0 <= Reference.procedureCheck (verfahren info) (Spec.digitValues body) <= 9
  /\ (validatePruefziffer (body ++ [x]) info = true
      <-> x = Z.to_N (48 + Reference.procedureCheck (verfahren info)
                            (Spec.digitValues body))).
Proof.
  intros L D X.
  pose proof (procedureCheck_range (verfahren info) (Spec.digitValues body))
    as R.
  split; [exact R|].
  assert (L13 : length (body ++ [x]) = 13%nat)
    by (rewrite length_app, L; reflexivity).
  assert (D13 : forallb isDigit (body ++ [x]) = true)
    by (rewrite forallb_app, D; simpl; rewrite X; reflexivity).
  rewrite (engine_reference _ info L13 D13).
  assert (F : firstn 12 (body ++ [x]) = body).
  { rewrite firstn_app, L, firstn_all2 by lia.
    simpl; apply app_nil_r. }
  assert (N12 : nth 12 (Spec.digitValues (body ++ [x])) (-1)
                = Spec.digitValue x).
  { unfold Spec.digitValues; rewrite List.map_app, app_nth2;
      rewrite length_map, L; [reflexivity | lia]. }
  rewrite F, N12, Z.eqb_eq.
  pose proof (digitValue_range x X) as RX.
  unfold Spec.digitValue in *.
  split; intros H; [|rewrite H]; lia.
Qed.

Lemma exactly_one_check_digit_witness :
  validatePruefziffer (js "111601234567" ++ [56%N]) (snd Sample.berlin1116)
  = true
  <-> 56%N
      = Z.to_N (48 + Reference.procedureCheck (js "BERLIN_A")
                       (Spec.digitValues (js "111601234567"))).
Proof.
  exact (proj2 (exactly_one_check_digit (js "111601234567") 56%N
                  (snd Sample.berlin1116) eq_refl eq_refl eq_refl)).
Defined.

(** The engine reads the characters 0 to 12 and nothing else: a string
    shorter than 13 characters is rejected under every procedure, and what
    follows the 13th character is ignored. *)
Theorem validatePruefziffer_bounds (s : jsstring) (info : FinanzamtInfo) :
  validatePruefziffer s info
  = if (length s <? 13)%nat then false
    else validatePruefziffer (firstn 13 s) info.
Proof.
  destruct (length s <? 13)%nat eqn:L.
  - apply Nat.ltb_lt in L.
    assert (E : NumberAt s 12 = None).
    { unfold NumberAt.
      replace (nth_error s 12) with (@None N); [reflexivity|].
      symmetry; apply nth_error_None; lia. }
    unfold validatePruefziffer; rewrite E, !strictEq_None_r.
    repeat match goal with
           | |- context [if ?b then _ else _] => destruct b
           end; reflexivity.
  - symmetry; apply validatePruefziffer_first13.
Qed.

(** ** The normalizer *)

Lemma stripNonDigits_forallb (s : jsstring) :
  forallb isDigit (stripNonDigits s) = true.
Proof. apply forallb_filter. Qed.

Lemma normalizeTo13Digits_strip (input b : jsstring) :
  normalizeTo13Digits input b = normalizeTo13Digits (stripNonDigits input) b.
Proof.
  unfold normalizeTo13Digits; rewrite stripNonDigits_idem; reflexivity.
Qed.

Lemma normalizeTo13Digits_cases (input b : jsstring) :
  normalizeTo13Digits input b
  = let d := stripNonDigits input in
    if Nat.eqb (length d) 10 || Nat.eqb (length d) 11 then
      Some (substring 0 2 b ++ firstn 2 d ++ [48%N] ++ skipn 2 d)
    else if Nat.eqb (length d) 12 then
      Some (firstn 4 d ++ [48%N] ++ skipn 4 d)
    else if Nat.eqb (length d) 13 then Some d
    else None.
Proof.
  rewrite normalizeTo13Digits_strip.
  pose proof (stripNonDigits_forallb input) as D.
  cbv zeta; set (d := stripNonDigits input) in *.
  destruct (Nat.eqb (length d) 10) eqn:L10.
  { apply Nat.eqb_eq in L10.
    rewrite (normalizeTo13Digits_10 d b D L10); reflexivity. }
  destruct (Nat.eqb (length d) 11) eqn:L11.
  { apply Nat.eqb_eq in L11.
    rewrite (normalizeTo13Digits_11 d b D L11); reflexivity. }
  destruct (Nat.eqb (length d) 12) eqn:L12.
  { apply Nat.eqb_eq in L12.
    rewrite (normalizeTo13Digits_12 d b D L12); reflexivity. }
  unfold normalizeTo13Digits.
  rewrite (stripNonDigits_digits d D), L10, L11, L12; reflexivity.
Qed.

(** [normalizeTo13Digits] in closed form.  The result is null exactly when
    the input has not 10, 11, 12 or 13 digits; of the regional code only
    the first two characters are used, and only for 10 and 11 digits; and
    the NRW branches build the same string as the others: the digits, with
    a 0 inserted after the office number. *)
Theorem normalizeTo13Digits_closed_form (input b : jsstring) :
  normalizeTo13Digits input b
  = let d := stripNonDigits input in
    if Nat.eqb (length d) 10 || Nat.eqb (length d) 11 then
      Some (substring 0 2 b ++ firstn 2 d ++ [48%N] ++ skipn 2 d)
    else if Nat.eqb (length d) 12 then
      Some (firstn 4 d ++ [48%N] ++ skipn 4 d)
    else if Nat.eqb (length d) 13 then Some d
    else None.
Proof. exact (normalizeTo13Digits_cases input b). Qed.

(** The old-format projection undoes the synthesis from ten digits: the
    synthesized string has 13 characters, begins with the state number of
    the regional code, has the filler 0 in its fifth place, and projects
    back onto the ten digits. *)
Theorem projection_of_synthesis (d b : jsstring) :
  forallb isDigit d = true -> length d = 10%nat -> length b = 4%nat ->
  exists c,
    normalizeTo13Digits d b = Some c
    /\ length c = 13%nat
    /\ substring 0 2 c = substring 0 2 b
    /\ nth_error c 4 = Some 48%N
    /\ Spec.oldFormatProjection c = d.
Proof.
  intros D L B.
  rewrite (normalizeTo13Digits_10 d b D L).
  destruct (ten _ d L)
    as (c0 & c1 & c2 & c3 & c4 & c5 & c6 & c7 & c8 & c9 & ->).
  destruct (four _ b B) as (b0 & b1 & b2 & b3 & ->).
  eexists; repeat split.
Qed.

Lemma projection_of_synthesis_witness :
  exists c,
    normalizeTo13Digits (js "1612345678") (js "1116") = Some c
    /\ length c = 13%nat
    /\ substring 0 2 c = substring 0 2 (js "1116")
    /\ nth_error c 4 = Some 48%N
    /\ Spec.oldFormatProjection c = js "1612345678".
Proof.
  exact (projection_of_synthesis (js "1612345678") (js "1116")
           eq_refl eq_refl eq_refl).
Defined.

(** ** The tax-number validator *)

Section Orchestration.

Variable BUFA_MAP : registry.

(** Routing: the validator looks at the decimal digits of its input only,
    and dispatches on their number. *)
Lemma validateSteuernummer_route (input : jsstring) :
  validateSteuernummer BUFA_MAP input
  = let d := stripNonDigits input in
    if Nat.eqb (length d) 10 then validate10DigitFormat BUFA_MAP d
    else if Nat.eqb (length d) 11 then validate11DigitFormat BUFA_MAP d
    else if Nat.eqb (length d) 12 then validate12DigitFormat BUFA_MAP d
    else if Nat.eqb (length d) 13 then validate13DigitFormat BUFA_MAP d
    else invalid reason_invalid_length_or_characters.
Proof.
  rewrite validateSteuernummer_digits.
  pose proof (stripNonDigits_forallb input) as D.
  cbv zeta; set (d := stripNonDigits input) in *.
  destruct (Nat.eqb (length d) 10) eqn:L10.
  { apply Nat.eqb_eq in L10; apply validateSteuernummer_10; assumption. }
  destruct (Nat.eqb (length d) 11) eqn:L11.
  { apply Nat.eqb_eq in L11; apply validateSteuernummer_11; assumption. }
  destruct (Nat.eqb (length d) 12) eqn:L12.
  { apply Nat.eqb_eq in L12; apply validateSteuernummer_12; assumption. }
  destruct (Nat.eqb (length d) 13) eqn:L13.
  { apply Nat.eqb_eq in L13; apply validateSteuernummer_13; assumption. }
  unfold validateSteuernummer, normalizeSteuernummer.
  rewrite (stripNonDigits_digits d D), L10, L11, L12, L13.
  destruct d; reflexivity.
Qed.

Lemma tryBufas_accepted (d : jsstring) (candidates : list jsstring)
  (r : Result) :
  tryBufas BUFA_MAP d candidates = Some r ->
  exists c b info,
    r = accepted c b (Finanzamtsdaten.bundesland info)
    /\ In b candidates
    /\ normalizeTo13Digits d b = Some c
    /\ lookup BUFA_MAP b = Some info
    /\ validatePruefziffer c info = true.
Proof.
  induction candidates as [|b rest IH]; simpl; [discriminate|].
  assert (K : tryBufas BUFA_MAP d rest = Some r ->
              exists c b0 info,
                r = accepted c b0 (Finanzamtsdaten.bundesland info)
                /\ (b = b0 \/ In b0 rest)
                /\ normalizeTo13Digits d b0 = Some c
                /\ lookup BUFA_MAP b0 = Some info
                /\ validatePruefziffer c info = true).
  { intros H; destruct (IH H) as (c & b0 & info & ? & ? & ? & ? & ?).
    exists c, b0, info; auto. }
  destruct (normalizeTo13Digits d b) as [c|] eqn:N; [|assumption].
  destruct (truthy (Some c)); [|assumption].
  destruct (lookup BUFA_MAP b) as [info|] eqn:E; [|assumption].
  destruct (validatePruefziffer c info) eqn:V; [|assumption].
  intros [= <-]; exists c, b, info; auto.
Qed.

(** Every outcome has one of three shapes.  An accepted number comes with
    a registered regional code whose checksum the returned canonical form
    passes, that form being the one synthesized from the input for that
    code; a 13-digit number that fails its checksum is rejected with the
    code and the state it names; every other rejection carries one of seven
    reasons and nothing else. *)
Lemma outcome_cases (input : jsstring) :
  let r := validateSteuernummer BUFA_MAP input in
  (exists n b info,
     r = accepted n b (Finanzamtsdaten.bundesland info)
     /\ lookup BUFA_MAP b = Some info
     /\ validatePruefziffer n info = true
     /\ normalizeTo13Digits input b = Some n)
  \/ (exists b info,
        r = mkResult false None (Some b)
              (Some (Finanzamtsdaten.bundesland info))
              (Some reason_invalid_pruefziffer)
        /\ lookup BUFA_MAP b = Some info)
  \/ (exists why,
        r = invalid why
        /\ In why [reason_invalid_length_or_characters; reason_all_zeros;
                   reason_unknown_finanzamt; reason_all_bufas_failed;
                   reason_unknown_bufa_code; reason_invalid_check_digit;
                   reason_unknown_bufa]).
Proof.
  cbv zeta; rewrite validateSteuernummer_route; cbv zeta.
  pose proof (stripNonDigits_forallb input) as D.
  assert (S : forall b, normalizeTo13Digits input b
                        = normalizeTo13Digits (stripNonDigits input) b)
    by (intros; apply normalizeTo13Digits_strip).
  set (d := stripNonDigits input) in *.
  assert (short : forall (r : Result) candidates,
             (match tryBufas BUFA_MAP d candidates with
              | Some r => r
              | None => invalid reason_all_bufas_failed
              end) = r ->
             (exists n b info,
                 r = accepted n b (Finanzamtsdaten.bundesland info)
                 /\ lookup BUFA_MAP b = Some info
                 /\ validatePruefziffer n info = true
                 /\ normalizeTo13Digits input b = Some n)
             \/ r = invalid reason_all_bufas_failed).
  { intros r cs E.
    destruct (tryBufas BUFA_MAP d cs) as [r'|] eqn:T; [|right; congruence].
    subst r'.
    destruct (tryBufas_accepted d cs r T) as (c & b & info & ? & _ & ? & ? & ?).
    left; exists c, b, info; rewrite S; auto. }
  destruct (Nat.eqb (length d) 10) eqn:L10.
  { unfold validate10DigitFormat.
    destruct (allZeros d); [right; right; eexists; split;
                            [reflexivity | simpl; tauto]|].
    destruct (Nat.eqb (length _) 0); [right; right; eexists; split;
                                      [reflexivity | simpl; tauto]|].
    match goal with
    | |- context [tryBufas BUFA_MAP d ?cs] =>
        destruct (short _ cs eq_refl) as [H | H]
    end; [left; exact H|].
    right; right; eexists; split; [exact H | simpl; tauto]. }
  destruct (Nat.eqb (length d) 11) eqn:L11.
  { unfold validate11DigitFormat.
    destruct (allZeros d); [right; right; eexists; split;
                            [reflexivity | simpl; tauto]|].
    destruct (Nat.eqb (length _) 0); [right; right; eexists; split;
                                      [reflexivity | simpl; tauto]|].
    match goal with
    | |- context [tryBufas BUFA_MAP d ?cs] =>
        destruct (short _ cs eq_refl) as [H | H]
    end; [left; exact H|].
    right; right; eexists; split; [exact H | simpl; tauto]. }
  destruct (Nat.eqb (length d) 12) eqn:L12.
  { apply Nat.eqb_eq in L12.
    unfold validate12DigitFormat.
    destruct (allZeros d); [right; right; eexists; split;
                            [reflexivity | simpl; tauto]|].
    destruct (lookup BUFA_MAP (substring 0 4 d)) as [info|] eqn:K;
      [|right; right; eexists; split; [reflexivity | simpl; tauto]].
    pose proof (normalizeTo13Digits_12 d (substring 0 4 d) D L12) as N.
    rewrite N.
    assert (T : truthy (Some (firstn 4 d ++ [48%N] ++ skipn 4 d)) = true).
    { destruct (firstn 4 d); reflexivity. }
    rewrite T; cbn [negb].
    destruct (validatePruefziffer _ info) eqn:V; cbn [negb];
      [|right; right; eexists; split; [reflexivity | simpl; tauto]].
    left; do 3 eexists; repeat split; [exact K | exact V|].
    rewrite S; exact N. }
  destruct (Nat.eqb (length d) 13) eqn:L13.
  { apply Nat.eqb_eq in L13.
    unfold validate13DigitFormat; rewrite bufa_of_13.
    destruct (lookup BUFA_MAP (substring 0 4 d)) as [info|] eqn:K;
      [|right; right; eexists; split; [reflexivity | simpl; tauto]].
    destruct (validatePruefziffer d info) eqn:V; cbn [negb].
    - left; do 3 eexists; repeat split; [exact K | exact V|].
      rewrite (normalizeTo13Digits_cases input); cbv zeta; fold d.
      rewrite L10, L11, L12, L13; reflexivity.
    - right; left; do 2 eexists; split; [reflexivity | exact K]. }
  right; right; eexists; split; [reflexivity | simpl; tauto].
Qed.

End Orchestration.

(** Soundness of acceptance: an accepted input comes with a regional code
    of the registry, the state of that entry, and a canonical form that is
    the one synthesized from the input for that code and passes the
    checksum of that entry. *)
Theorem accepted_number_is_sound (BUFA_MAP : registry) (input : jsstring) :
  valid (validateSteuernummer BUFA_MAP input) = true ->
  exists n b info,
    validateSteuernummer BUFA_MAP input
    = accepted n b (Finanzamtsdaten.bundesland info)
    /\ lookup BUFA_MAP b = Some info
    /\ validatePruefziffer n info = true
    /\ normalizeTo13Digits input b = Some n.
Proof.
  intros V.
  destruct (outcome_cases BUFA_MAP input)
    as [H | [(b & info & E & _) | (why & E & _)]];
    [exact H | rewrite E in V; discriminate V | rewrite E in V; discriminate V].
Qed.

Lemma accepted_number_is_sound_witness :
  exists n b info,
    validateSteuernummer Sample.BUFA_MAP (js "16/123/45678")
    = accepted n b (Finanzamtsdaten.bundesland info)
    /\ lookup Sample.BUFA_MAP b = Some info
    /\ validatePruefziffer n info = true
    /\ normalizeTo13Digits (js "16/123/45678") b = Some n.
Proof.
  exact (accepted_number_is_sound Sample.BUFA_MAP (js "16/123/45678") eq_refl).
Defined.

(** The shape of an outcome: either valid with normalized, bufa and
    bundesland and no reason, or not valid with a reason and no normalized
    form; bufa and bundesland accompany a rejection only together, and only
    with the reason 'Invalid Pruefziffer'. *)
Theorem outcome_shape (BUFA_MAP : registry) (input : jsstring) :
  let r := validateSteuernummer BUFA_MAP input in
  (valid r = true /\ reason r = None
   /\ exists n b land,
        normalized r = Some n /\ bufa r = Some b /\ bundesland r = Some land)
  \/ (valid r = false /\ normalized r = None
      /\ exists why,
           reason r = Some why
           /\ ((bufa r = None /\ bundesland r = None)
               \/ (why = reason_invalid_pruefziffer
                   /\ exists b land,
                        bufa r = Some b /\ bundesland r = Some land))).
Proof.
  cbv zeta.
  destruct (outcome_cases BUFA_MAP input)
    as [(n & b & info & E & _) | [(b & info & E & _) | (why & E & _)]];
    rewrite E.
  - left; split; [reflexivity|]; split; [reflexivity|].
    do 3 eexists; repeat split.
  - right; split; [reflexivity|]; split; [reflexivity|].
    eexists; split; [reflexivity|].
    right; split; [reflexivity|]; do 2 eexists; split; reflexivity.
  - right; split; [reflexivity|]; split; [reflexivity|].
    eexists; split; [reflexivity|].
    left; split; reflexivity.
Qed.

(** Two of the messages of the source are never returned: 'Cannot convert
    to 13-digit format' and 'Invalid length: must be 10, 11, 12, or 13
    digits'. *)
Theorem unreachable_reasons (BUFA_MAP : registry) (input : jsstring) :
  Reference.reasonIs (validateSteuernummer BUFA_MAP input)
    reason_cannot_convert = false
  /\ Reference.reasonIs (validateSteuernummer BUFA_MAP input)
       reason_invalid_length = false.
Proof.
  destruct (outcome_cases BUFA_MAP input)
    as [(n & b & info & E & _) | [(b & info & E & _) | (why & E & I)]];
    rewrite E; try (split; reflexivity).
  cbn [In] in I.
  repeat (destruct I as [<- | I]; [split; reflexivity|]).
  destruct I.
Qed.

(** The reason 'Invalid length or characters' is returned exactly for the
    inputs that have not 10, 11, 12 or 13 decimal digits, whatever else
    they contain. *)
Theorem invalid_length_exactly (BUFA_MAP : registry) (input : jsstring) :
  Reference.reasonIs (validateSteuernummer BUFA_MAP input)
    reason_invalid_length_or_characters
  = negb (existsb (Nat.eqb (length (stripNonDigits input)))
            [10; 11; 12; 13]%nat).
Proof.
  rewrite validateSteuernummer_route; cbv zeta.
  set (d := stripNonDigits input).
  cbn [existsb].
  assert (T : forall cs,
             Reference.reasonIs
               (match tryBufas BUFA_MAP d cs with
                | Some r => r
                | None => invalid reason_all_bufas_failed
                end) reason_invalid_length_or_characters = false).
  { intros cs; destruct (tryBufas BUFA_MAP d cs) as [r|] eqn:E;
      [|reflexivity].
    destruct (tryBufas_accepted _ _ _ _ E) as (c & b & info & -> & _).
    reflexivity. }
  destruct (Nat.eqb (length d) 10).
  { unfold validate10DigitFormat.
    destruct (allZeros d); [reflexivity|].
    destruct (Nat.eqb (length _) 0); [reflexivity | apply T]. }
  destruct (Nat.eqb (length d) 11).
  { unfold validate11DigitFormat.
    destruct (allZeros d); [reflexivity|].
    destruct (Nat.eqb (length _) 0); [reflexivity | apply T]. }
  destruct (Nat.eqb (length d) 12).
  { unfold validate12DigitFormat.
    destruct (allZeros d); [reflexivity|].
    destruct (lookup BUFA_MAP _); [|reflexivity].
    destruct (normalizeTo13Digits d _) as [c|]; [|reflexivity].
    destruct (truthy (Some c)); [|reflexivity].
    destruct (validatePruefziffer c f); reflexivity. }
  destruct (Nat.eqb (length d) 13).
  { unfold validate13DigitFormat.
    destruct (lookup BUFA_MAP _); [|reflexivity].
    destruct (validatePruefziffer d f); reflexivity. }
  reflexivity.
Qed.

(** ** The candidate search *)

Section Search.

Variable BUFA_MAP : registry.
Variable d : jsstring.

Lemma tryBufas_find (candidates : list jsstring) :
  match tryBufas BUFA_MAP d candidates with
  | Some r => bufa r
  | None => None
  end = find (Reference.candidatePasses BUFA_MAP d) candidates.
Proof.
  induction candidates as [|b rest IH]; [reflexivity|].
  cbn [tryBufas find]; unfold Reference.candidatePasses at 1.
  destruct (normalizeTo13Digits d b) as [c|]; [|exact IH].
  destruct (truthy (Some c));
    destruct (lookup BUFA_MAP b) as [info|]; try exact IH.
  cbn [andb].
  destruct (validatePruefziffer c info); [reflexivity | exact IH].
Qed.

Lemma tryBufas_existsb (candidates : list jsstring) :
  match tryBufas BUFA_MAP d candidates with
  | Some r => valid r
  | None => false
  end = existsb (Reference.candidatePasses BUFA_MAP d) candidates.
Proof.
  induction candidates as [|b rest IH]; [reflexivity|].
  cbn [tryBufas existsb]; unfold Reference.candidatePasses at 1.
  destruct (normalizeTo13Digits d b) as [c|]; [|exact IH].
  destruct (truthy (Some c));
    destruct (lookup BUFA_MAP b) as [info|]; try exact IH.
  cbn [andb].
  destruct (validatePruefziffer c info); [reflexivity | exact IH].
Qed.

(** A 10- or 11-digit number that is not all zeros is accepted exactly when
    some candidate passes, and the regional code reported is then the first
    candidate, in the order of the registry, that passes; no code is
    reported otherwise. *)
Theorem first_passing_candidate :
  forallb isDigit d = true ->
  length d = 10%nat \/ length d = 11%nat ->
  allZeros d = false ->
  valid (validateSteuernummer BUFA_MAP d)
  = existsb (Reference.candidatePasses BUFA_MAP d)
      (findPossibleBufas BUFA_MAP (substring 0 2 d))
  /\ bufa (validateSteuernummer BUFA_MAP d)
     = find (Reference.candidatePasses BUFA_MAP d)
         (findPossibleBufas BUFA_MAP (substring 0 2 d)).
Proof.
  intros D L Z.
  assert (E : validateSteuernummer BUFA_MAP d
              = match tryBufas BUFA_MAP d
                        (findPossibleBufas BUFA_MAP (substring 0 2 d)) with
                | Some r => r
                | None =>
                    if Nat.eqb
                         (length (findPossibleBufas BUFA_MAP (substring 0 2 d)))
                         0
                    then invalid reason_unknown_finanzamt
                    else invalid reason_all_bufas_failed
                end).
  { destruct L as [L | L];
      [rewrite (validateSteuernummer_10 _ d D L); unfold validate10DigitFormat
      |rewrite (validateSteuernummer_11 _ d D L); unfold validate11DigitFormat];
      rewrite Z;
      destruct (findPossibleBufas BUFA_MAP (substring 0 2 d)); reflexivity. }
  rewrite E, <- tryBufas_find, <- tryBufas_existsb.
  destruct (tryBufas BUFA_MAP d _); [split; reflexivity|].
  destruct (Nat.eqb _ 0); split; reflexivity.
Qed.

End Search.

Lemma first_passing_candidate_witness :
  valid (validateSteuernummer Sample.BUFA_MAP_office00 (js "1612345678"))
  = existsb
      (Reference.candidatePasses Sample.BUFA_MAP_office00 (js "1612345678"))
      (findPossibleBufas Sample.BUFA_MAP_office00 (js "16"))
  /\ bufa (validateSteuernummer Sample.BUFA_MAP_office00 (js "1612345678"))
     = find
         (Reference.candidatePasses Sample.BUFA_MAP_office00 (js "1612345678"))
         (findPossibleBufas Sample.BUFA_MAP_office00 (js "16")).
Proof.
  exact (first_passing_candidate Sample.BUFA_MAP_office00 (js "1612345678")
           eq_refl (or_introl eq_refl) eq_refl).
Defined.

(** ** Twelve digits *)

Lemma twelve_as_thirteen (BUFA_MAP : registry) (d : jsstring) :
  forallb isDigit d = true -> length d = 12%nat -> allZeros d = false ->
  valid (validateSteuernummer BUFA_MAP d)
  = valid (validateSteuernummer BUFA_MAP (Reference.withFiller d))
  /\ normalized (validateSteuernummer BUFA_MAP d)
     = normalized (validateSteuernummer BUFA_MAP (Reference.withFiller d))
  /\ (valid (validateSteuernummer BUFA_MAP d) = true ->
      validateSteuernummer BUFA_MAP (Reference.withFiller d)
      = validateSteuernummer BUFA_MAP d).
Proof.
  intros D L Z.
  assert (D13 : forallb isDigit (Reference.withFiller d) = true
                /\ length (Reference.withFiller d) = 13%nat
                /\ substring 0 4 (Reference.withFiller d) = substring 0 4 d).
  { destruct (twelve _ d L)
      as (c0 & c1 & c2 & c3 & c4 & c5 & c6 & c7 & c8 & c9 & c10 & c11 & E).
    rewrite E in *; cbn [forallb] in D; rewrite !andb_true_iff in D.
    unfold Reference.withFiller; cbn [firstn skipn app forallb].
    rewrite !andb_true_iff; repeat split; tauto. }
  destruct D13 as (D13 & L13 & B).
  rewrite (validateSteuernummer_12 _ d D L).
  rewrite (validateSteuernummer_13 _ _ D13 L13).
  unfold validate12DigitFormat, validate13DigitFormat.
  rewrite Z, bufa_of_13, B.
  destruct (lookup BUFA_MAP (substring 0 4 d)) as [info|];
    [|repeat split; discriminate].
  rewrite (normalizeTo13Digits_12 d _ D L); cbv zeta.
  change (firstn 4 d ++ [48%N] ++ skipn 4 d) with (Reference.withFiller d).
  destruct (Reference.withFiller d) as [|c0 w]; [discriminate L13|].
  cbn [truthy negb].
  destruct (validatePruefziffer (c0 :: w) info); cbn [negb];
    repeat split; discriminate.
Qed.

(** A 12-digit number that is not all zeros is accepted exactly when the
    13-digit number obtained by inserting the filler 0 after its regional
    code is, and then with the same outcome. *)
Theorem twelve_digits_as_thirteen (BUFA_MAP : registry) (d : jsstring) :
  forallb isDigit d = true -> length d = 12%nat -> allZeros d = false ->
  valid (validateSteuernummer BUFA_MAP d)
  = valid (validateSteuernummer BUFA_MAP (Reference.withFiller d))
  /\ normalized (validateSteuernummer BUFA_MAP d)
     = normalized (validateSteuernummer BUFA_MAP (Reference.withFiller d))
  /\ (valid (validateSteuernummer BUFA_MAP d) = true ->
      validateSteuernummer BUFA_MAP (Reference.withFiller d)
      = validateSteuernummer BUFA_MAP d).
Proof. exact (twelve_as_thirteen BUFA_MAP d). Qed.

Lemma twelve_digits_as_thirteen_witness :
  valid (validateSteuernummer Sample.BUFA_MAP (js "111612345678"))
  = valid (validateSteuernummer Sample.BUFA_MAP
             (Reference.withFiller (js "111612345678")))
  /\ normalized (validateSteuernummer Sample.BUFA_MAP (js "111612345678"))
     = normalized (validateSteuernummer Sample.BUFA_MAP
                     (Reference.withFiller (js "111612345678")))
  /\ (valid (validateSteuernummer Sample.BUFA_MAP (js "111612345678")) = true ->
      validateSteuernummer Sample.BUFA_MAP
        (Reference.withFiller (js "111612345678"))
      = validateSteuernummer Sample.BUFA_MAP (js "111612345678")).
Proof.
  exact (twelve_digits_as_thirteen Sample.BUFA_MAP (js "111612345678")
           eq_refl eq_refl eq_refl).
Defined.

(** ** Validating a returned canonical form again *)

Lemma wellFormed_entry (m : registry) (b : jsstring) (info : FinanzamtInfo) :
  Reference.wellFormed m -> In (b, info) m ->
  length b = 4%nat /\ forallb isDigit b = true
  /\ finanzamtsnummer info = substring 2 4 b.
Proof.
  unfold Reference.wellFormed; rewrite Forall_forall; intros W H.
  apply (W (b, info) H).
Qed.

Lemma short_accepted (BUFA_MAP : registry) (d : jsstring) :
  forallb isDigit d = true -> length d = 10%nat \/ length d = 11%nat ->
  valid (validateSteuernummer BUFA_MAP d) = true ->
  exists c b info,
    validateSteuernummer BUFA_MAP d
    = accepted c b (Finanzamtsdaten.bundesland info)
    /\ In b (findPossibleBufas BUFA_MAP (substring 0 2 d))
    /\ normalizeTo13Digits d b = Some c
    /\ lookup BUFA_MAP b = Some info
    /\ validatePruefziffer c info = true.
Proof.
  intros D L.
  assert (E : validateSteuernummer BUFA_MAP d
              = if allZeros d then invalid reason_all_zeros
                else if Nat.eqb
                          (length
                             (findPossibleBufas BUFA_MAP (substring 0 2 d))) 0
                     then invalid reason_unknown_finanzamt
                     else match tryBufas BUFA_MAP d
                                  (findPossibleBufas BUFA_MAP
                                     (substring 0 2 d)) with
                          | Some r => r
                          | None => invalid reason_all_bufas_failed
                          end).
  { destruct L as [L | L];
      [rewrite (validateSteuernummer_10 _ d D L)
      |rewrite (validateSteuernummer_11 _ d D L)]; reflexivity. }
  rewrite E.
  destruct (allZeros d); [discriminate|].
  destruct (Nat.eqb _ 0); [discriminate|].
  destruct (tryBufas BUFA_MAP d _) as [r|] eqn:T; [|discriminate].
  intros _; destruct (tryBufas_accepted _ _ _ _ T)
    as (c & b & info & -> & ? & ? & ? & ?).
  exists c, b, info; auto.
Qed.

Lemma canonical_of_ten (BUFA_MAP : registry) (d c b : jsstring)
  (info : FinanzamtInfo) :
  Reference.wellFormed BUFA_MAP ->
  forallb isDigit d = true -> length d = 10%nat ->
  In b (findPossibleBufas BUFA_MAP (substring 0 2 d)) ->
  normalizeTo13Digits d b = Some c ->
  forallb isDigit c = true /\ length c = 13%nat /\ substring 0 4 c = b.
Proof.
  intros W D L I N.
  apply findPossibleBufas_In in I; destruct I as (info' & I & F).
  destruct (wellFormed_entry _ _ _ W I) as (B & DB & O).
  rewrite (normalizeTo13Digits_10 d b D L) in N; injection N as <-.
  rewrite O in F.
  destruct (four _ b B) as (b0 & b1 & b2 & b3 & ->).
  destruct (ten _ d L)
    as (c0 & c1 & c2 & c3 & c4 & c5 & c6 & c7 & c8 & c9 & ->).
  injection F as -> ->.
  cbn [forallb] in D, DB.
  repeat (apply andb_true_iff in D; destruct D as [?D D]).
  repeat (apply andb_true_iff in DB; destruct DB as [?DB DB]).
  repeat split.
  cbn [substring firstn skipn app Nat.min Nat.max Nat.sub].
  apply forallb_forall; intros x Hx; cbn [In] in Hx.
  repeat (destruct Hx as [<- | Hx]; [assumption || reflexivity|]).
  destruct Hx.
Qed.

Lemma thirteen_accepted_normalized (BUFA_MAP : registry) (d : jsstring) :
  forallb isDigit d = true -> length d = 13%nat ->
  valid (validateSteuernummer BUFA_MAP d) = true ->
  normalized (validateSteuernummer BUFA_MAP d) = Some d.
Proof.
  intros D L.
  rewrite (validateSteuernummer_13 _ d D L); unfold validate13DigitFormat.
  destruct (lookup BUFA_MAP _) as [info|]; [|discriminate].
  destruct (validatePruefziffer d info); [reflexivity | discriminate].
Qed.

Lemma withFiller_digits (d : jsstring) :
  forallb isDigit d = true -> length d = 12%nat ->
  forallb isDigit (Reference.withFiller d) = true
  /\ length (Reference.withFiller d) = 13%nat.
Proof.
  intros D L.
  destruct (twelve _ d L)
    as (c0 & c1 & c2 & c3 & c4 & c5 & c6 & c7 & c8 & c9 & c10 & c11 & ->).
  split; [|reflexivity].
  unfold Reference.withFiller; cbn [firstn skipn app].
  rewrite forallb_forall in D.
  apply forallb_forall; intros x Hx; cbn [In] in Hx.
  repeat (destruct Hx as [<- | Hx];
          [reflexivity || (apply D; simpl; tauto)|]).
  destruct Hx.
Qed.

(** With a registry of the data model, the canonical form returned for an
    accepted input of 10, 12 or 13 digits is itself accepted, with the very
    same outcome. *)
Theorem accepted_canonical_revalidates
  (BUFA_MAP : registry) (input : jsstring) :
  Reference.wellFormed BUFA_MAP ->
  length (stripNonDigits input) <> 11%nat ->
  valid (validateSteuernummer BUFA_MAP input) = true ->
  exists n,
    normalized (validateSteuernummer BUFA_MAP input) = Some n
    /\ validateSteuernummer BUFA_MAP n = validateSteuernummer BUFA_MAP input.
Proof.
  intros W L11.
  rewrite (validateSteuernummer_digits BUFA_MAP input).
  pose proof (stripNonDigits_forallb input) as D.
  set (d := stripNonDigits input) in *.
  intros V.
  pose proof (invalid_length_guard := validateSteuernummer_route BUFA_MAP d).
  cbv zeta in invalid_length_guard.
  rewrite (stripNonDigits_digits d D) in invalid_length_guard.
  destruct (Nat.eqb (length d) 10) eqn:L10.
  { apply Nat.eqb_eq in L10.
    destruct (short_accepted BUFA_MAP d D (or_introl L10) V)
      as (c & b & info & E & I & N & K & C).
    destruct (canonical_of_ten _ _ _ _ info W D L10 I N) as (Dc & Lc & Bc).
    exists c; rewrite E; split; [reflexivity|].
    rewrite (validateSteuernummer_13 _ c Dc Lc).
    unfold validate13DigitFormat; rewrite bufa_of_13, Bc, K, C; reflexivity. }
  destruct (Nat.eqb (length d) 11) eqn:L11'.
  { apply Nat.eqb_eq in L11'; contradiction. }
  destruct (Nat.eqb (length d) 12) eqn:L12.
  { apply Nat.eqb_eq in L12.
    assert (Z : allZeros d = false).
    { rewrite invalid_length_guard in V; unfold validate12DigitFormat in V.
      destruct (allZeros d); [discriminate V | reflexivity]. }
    destruct (twelve_as_thirteen BUFA_MAP d D L12 Z) as (Vv & Nn & Same).
    destruct (withFiller_digits d D L12) as (Dw & Lw).
    exists (Reference.withFiller d); split; [|exact (Same V)].
    rewrite Nn; apply thirteen_accepted_normalized; try assumption.
    rewrite <- Vv; exact V. }
  destruct (Nat.eqb (length d) 13) eqn:L13.
  { apply Nat.eqb_eq in L13.
    exists d; split; [|reflexivity].
    apply thirteen_accepted_normalized; assumption. }
  rewrite invalid_length_guard in V; discriminate V.
Qed.

Lemma sample_wellFormed : Reference.wellFormed Sample.BUFA_MAP.
Proof. repeat constructor. Qed.

Lemma accepted_canonical_revalidates_witness :
  exists n,
    normalized (validateSteuernummer Sample.BUFA_MAP (js "16/123/45678"))
    = Some n
    /\ validateSteuernummer Sample.BUFA_MAP n
       = validateSteuernummer Sample.BUFA_MAP (js "16/123/45678").
Proof.
  apply (accepted_canonical_revalidates Sample.BUFA_MAP (js "16/123/45678")
           sample_wellFormed);
    [discriminate | reflexivity].
Defined.

(** An accepted 11-digit input is the exception: with a registry of the
    data model, the canonical form returned for it has 14 digits, and
    [validateSteuernummer] rejects that form for its length. *)
Theorem eleven_digit_canonical_rejected
  (BUFA_MAP : registry) (input : jsstring) :
  Reference.wellFormed BUFA_MAP ->
  length (stripNonDigits input) = 11%nat ->
  valid (validateSteuernummer BUFA_MAP input) = true ->
  exists n,
    normalized (validateSteuernummer BUFA_MAP input) = Some n
    /\ length n = 14%nat
    /\ validateSteuernummer BUFA_MAP n
       = invalid reason_invalid_length_or_characters.
Proof.
  intros W L.
  rewrite (validateSteuernummer_digits BUFA_MAP input).
  pose proof (stripNonDigits_forallb input) as D.
  set (d := stripNonDigits input) in *.
  intros V.
  destruct (short_accepted BUFA_MAP d D (or_intror L) V)
    as (c & b & info & E & I & N & K & C).
  apply findPossibleBufas_In in I; destruct I as (info' & I & _).
  destruct (wellFormed_entry _ _ _ W I) as (B & DB & _).
  rewrite (normalizeTo13Digits_11 d b D L) in N; injection N as <-.
  exists (substring 0 2 b ++ firstn 2 d ++ [48%N] ++ skipn 2 d).
  rewrite E; split; [reflexivity|].
  destruct (four _ b B) as (b0 & b1 & b2 & b3 & ->).
  destruct (eleven _ d L)
    as (c0 & c1 & c2 & c3 & c4 & c5 & c6 & c7 & c8 & c9 & c10 & Ed).
  rewrite Ed in *.
  split; [reflexivity|].
  cbn [substring firstn skipn app Nat.min Nat.max Nat.sub].
  rewrite validateSteuernummer_route; cbv zeta.
  rewrite stripNonDigits_digits; [reflexivity|].
  rewrite forallb_forall in D, DB.
  apply forallb_forall; intros x Hx; cbn [In] in Hx.
  repeat (destruct Hx as [<- | Hx];
          [reflexivity || (apply D; simpl; tauto)
           || (apply DB; simpl; tauto)|]).
  destruct Hx.
Qed.

Lemma eleven_digit_canonical_rejected_witness :
  exists n,
    normalized (validateSteuernummer Sample.BUFA_MAP (js "16123456780"))
    = Some n
    /\ length n = 14%nat
    /\ validateSteuernummer Sample.BUFA_MAP n
       = invalid reason_invalid_length_or_characters.
Proof.
  exact (eleven_digit_canonical_rejected Sample.BUFA_MAP (js "16123456780")
           sample_wellFormed eq_refl eq_refl).
Defined.

(** ** The tax ID: check digit and error detection *)

Lemma taxIdLoop_NaN (s : jsstring) (acc : number) :
  forallb isDigit s = false -> fold_left taxIdLoopBody s acc = None.
Proof.
  revert acc; induction s as [|c s IH]; intros acc; [discriminate|].
  cbn [forallb fold_left].
  destruct (isDigit c) eqn:Dc; cbn [andb]; intros H.
  - apply IH; assumption.
  - assert (E : taxIdLoopBody acc c = None).
    { unfold taxIdLoopBody, parseInt; rewrite Dc; reflexivity. }
    rewrite E; clear.
    induction s as [|c' s IH]; [reflexivity|].
    cbn [fold_left].
    replace (taxIdLoopBody None c') with (@None Z); [exact IH|].
    unfold taxIdLoopBody; destruct (parseInt [c']); reflexivity.
Qed.

Lemma taxIdCheckDigit_range (ds : jsstring) :
  forallb isDigit ds = true ->
  0 <= Spec.taxIdCheckDigit (Spec.digitValues ds) <= 9.
Proof.
  intros D.
  destruct (taxIdLoop_spec ds 10 ltac:(lia) D) as [_ R].
  unfold Spec.taxIdCheckDigit.
  set (product := fold_left Spec.taxIdStep (Spec.digitValues ds) 10) in *.
  rewrite (Z.mod_small (11 - product) 11) by lia.
  destruct (11 - product =? 10) eqn:E; [lia|].
  apply Z.eqb_neq in E; lia.
Qed.

(** [calculateTaxIdCheckDigit] returns a digit between 0 and 9 on every
    string of decimal digits, of whatever length, and NaN on every string
    that contains anything else. *)
Theorem calculateTaxIdCheckDigit_total (s : jsstring) :
  match calculateTaxIdCheckDigit s with
  | Some c => forallb isDigit s = true /\ 0 <= c <= 9
  | None => forallb isDigit s = false
  end.
Proof.
  destruct (forallb isDigit s) eqn:D.
  - rewrite (calculateTaxIdCheckDigit_spec s D).
    split; [reflexivity | apply taxIdCheckDigit_range; assumption].
  - unfold calculateTaxIdCheckDigit.
    change (fold_left _ s (Some 10)) with (fold_left taxIdLoopBody s (Some 10)).
    rewrite (taxIdLoop_NaN s _ D); reflexivity.
Qed.

Lemma stripSpaces_digits (s : jsstring) :
  forallb isDigit s = true -> stripSpaces s = s.
Proof.
  unfold stripSpaces; induction s as [|c s IH]; simpl; [reflexivity|].
  rewrite andb_true_iff; intros [Dc D].
  rewrite (digit_not_space c Dc), IH; auto.
Qed.

(** On ten digits followed by a digit, the validator compares the check
    digit of the ten with the eleventh. *)
Lemma validateGermanTaxId_digits (main : jsstring) (k : N) :
  forallb isDigit main = true -> length main = 10%nat -> isDigit k = true ->
  validateGermanTaxId (main ++ [k])
  = (Spec.taxIdCheckDigit (Spec.digitValues main) =? Spec.digitValue k).
Proof.
  intros D L K.
  assert (D11 : forallb isDigit (main ++ [k]) = true)
    by (rewrite forallb_app, D; simpl; rewrite K; reflexivity).
  unfold validateGermanTaxId.
  rewrite stripSpaces_trim, (stripSpaces_digits _ D11).
  unfold elevenDigits; rewrite D11, length_app, L.
  cbn [length Nat.add Nat.eqb andb negb].
  assert (S : substring 0 10 (main ++ [k]) = main).
  { unfold substring; cbn [Nat.min Nat.max Nat.sub skipn].
    rewrite firstn_app, L, firstn_all2 by lia.
    simpl; apply app_nil_r. }
  assert (C : charAt 10 (main ++ [k]) = [k]).
  { unfold charAt; rewrite nth_error_app2, L by lia; reflexivity. }
  rewrite S, C, (calculateTaxIdCheckDigit_spec main D).
  cbn [parseInt]; rewrite K; reflexivity.
Qed.

Lemma taxIdStep_injective :
  forallb
    (fun p =>
       forallb
         (fun d =>
            forallb
              (fun e =>
                 implb (Spec.taxIdStep p d =? Spec.taxIdStep p e) (d =? e)
                 && implb (Spec.taxIdStep (d + 1) p =? Spec.taxIdStep (e + 1) p)
                      (d =? e))
              [0; 1; 2; 3; 4; 5; 6; 7; 8; 9])
         [0; 1; 2; 3; 4; 5; 6; 7; 8; 9])
    [0; 1; 2; 3; 4; 5; 6; 7; 8; 9; 10] = true.
Proof. vm_compute; reflexivity. Qed.

Lemma digit_in_list (d : Z) :
  0 <= d <= 9 -> In d [0; 1; 2; 3; 4; 5; 6; 7; 8; 9].
Proof. intros H; simpl; lia. Qed.

Lemma taxIdStep_inj_digit (p d e : Z) :
  1 <= p <= 10 -> 0 <= d <= 9 -> 0 <= e <= 9 ->
  Spec.taxIdStep p d = Spec.taxIdStep p e -> d = e.
Proof.
  intros Hp Hd He E.
  pose proof taxIdStep_injective as T.
  rewrite forallb_forall in T.
  specialize (T p ltac:(simpl; lia)).
  rewrite forallb_forall in T; specialize (T d (digit_in_list d Hd)).
  rewrite forallb_forall in T; specialize (T e (digit_in_list e He)).
  apply andb_true_iff in T; destruct T as [T _].
  rewrite E, Z.eqb_refl in T; apply Z.eqb_eq; exact T.
Qed.

Lemma taxIdStep_inj_product (p q d : Z) :
  1 <= p <= 10 -> 1 <= q <= 10 -> 0 <= d <= 9 ->
  Spec.taxIdStep p d = Spec.taxIdStep q d -> p = q.
Proof.
  intros Hp Hq Hd E.
  pose proof taxIdStep_injective as T.
  rewrite forallb_forall in T.
  specialize (T d ltac:(simpl; lia)).
  assert (Hp' : 0 <= p - 1 <= 9) by lia.
  assert (Hq' : 0 <= q - 1 <= 9) by lia.
  rewrite forallb_forall in T.
  specialize (T (p - 1) (digit_in_list _ Hp')).
  rewrite forallb_forall in T.
  specialize (T (q - 1) (digit_in_list _ Hq')).
  apply andb_true_iff in T; destruct T as [_ T].
  replace (p - 1 + 1) with p in T by lia.
  replace (q - 1 + 1) with q in T by lia.
  rewrite E, Z.eqb_refl in T; apply Z.eqb_eq in T; lia.
Qed.

Lemma taxIdFold_range (ds : list Z) (p : Z) :
  Forall (fun d => 0 <= d <= 9) ds -> 1 <= p <= 10 ->
  1 <= fold_left Spec.taxIdStep ds p <= 10.
Proof.
  intros F; revert p; induction F as [|d ds Hd _ IH]; intros p Hp; simpl.
  - exact Hp.
  - apply IH, taxIdStep_range; assumption.
Qed.

Lemma taxIdFold_injective (ds : list Z) (p q : Z) :
  Forall (fun d => 0 <= d <= 9) ds -> 1 <= p <= 10 -> 1 <= q <= 10 ->
  fold_left Spec.taxIdStep ds p = fold_left Spec.taxIdStep ds q -> p = q.
Proof.
  intros F; revert p q; induction F as [|d ds Hd _ IH]; intros p q Hp Hq;
    simpl; [auto|].
  intros E.
  apply (taxIdStep_inj_product p q d Hp Hq Hd).
  apply IH; [apply taxIdStep_range | apply taxIdStep_range |]; assumption.
Qed.

Lemma digitValues_range (s : jsstring) :
  forallb isDigit s = true ->
  Forall (fun d => 0 <= d <= 9) (Spec.digitValues s).
Proof.
  intros D; unfold Spec.digitValues; apply Forall_map.
  rewrite forallb_forall in D; apply Forall_forall.
  intros c Hc; apply digitValue_range, D, Hc.
Qed.

(** Replacing one digit of the ten changes the check digit. *)
Lemma taxIdCheckDigit_sensitive (pre suf : jsstring) (a b : N) :
  forallb isDigit (pre ++ a :: suf) = true -> isDigit b = true -> a <> b ->
  Spec.taxIdCheckDigit (Spec.digitValues (pre ++ a :: suf))
  <> Spec.taxIdCheckDigit (Spec.digitValues (pre ++ b :: suf)).
Proof.
  intros D Db Hab.
  rewrite forallb_app in D; apply andb_true_iff in D; destruct D as [Dp D].
  cbn [forallb] in D; apply andb_true_iff in D; destruct D as [Da Ds].
  pose proof (digitValues_range pre Dp) as Rp.
  pose proof (digitValues_range suf Ds) as Rs.
  pose proof (digitValue_range a Da) as Ra.
  pose proof (digitValue_range b Db) as Rb.
  unfold Spec.taxIdCheckDigit, Spec.digitValues.
  rewrite !List.map_app; cbn [List.map]; rewrite !fold_left_app.
  cbn [fold_left].
  fold (Spec.digitValues pre); fold (Spec.digitValues suf).
  set (P := fold_left Spec.taxIdStep (Spec.digitValues pre) 10).
  assert (HP : 1 <= P <= 10) by (apply taxIdFold_range; [assumption | lia]).
  pose proof (taxIdStep_range P _ HP Ra) as Sa.
  pose proof (taxIdStep_range P _ HP Rb) as Sb.
  pose proof (taxIdFold_range _ _ Rs Sa) as Fa.
  pose proof (taxIdFold_range _ _ Rs Sb) as Fb.
  set (Qa := fold_left Spec.taxIdStep (Spec.digitValues suf)
               (Spec.taxIdStep P (Spec.digitValue a))) in *.
  set (Qb := fold_left Spec.taxIdStep (Spec.digitValues suf)
               (Spec.taxIdStep P (Spec.digitValue b))) in *.
  assert (Qa <> Qb).
  { intros E.
    apply (taxIdFold_injective _ _ _ Rs Sa Sb) in E.
    apply (taxIdStep_inj_digit P _ _ HP Ra Rb) in E.
    unfold Spec.digitValue in E; apply Hab; lia. }
  rewrite (Z.mod_small (11 - Qa) 11), (Z.mod_small (11 - Qb) 11) by lia.
  destruct (11 - Qa =? 10) eqn:Ea; destruct (11 - Qb =? 10) eqn:Eb;
    rewrite ?Z.eqb_eq, ?Z.eqb_neq in *; lia.
Qed.

(** Every single-digit error is detected: if an 11-digit tax ID is valid,
    the string obtained by replacing any one of its digits, the check digit
    included, by another digit is not. *)
Theorem single_digit_error_detected (pre suf : jsstring) (a b : N) :
  forallb isDigit (pre ++ a :: suf) = true ->
  length (pre ++ a :: suf) = 11%nat ->
  isDigit b = true -> a <> b ->
  validateGermanTaxId (pre ++ a :: suf) = true ->
  validateGermanTaxId (pre ++ b :: suf) = false.
Proof.
  intros D L Db Hab.
  assert (D' : forallb isDigit (pre ++ b :: suf) = true).
  { rewrite forallb_app in *; cbn [forallb] in *.
    rewrite !andb_true_iff in *; tauto. }
  assert (L' : length (pre ++ b :: suf) = 11%nat)
    by (rewrite length_app in *; exact L).
  destruct suf as [|k suf0 _] using rev_ind.
  - assert (Lp : length pre = 10%nat)
      by (rewrite length_app in L; simpl in L; lia).
    assert (Dp : forallb isDigit pre = true).
    { rewrite forallb_app in D; apply andb_true_iff in D; tauto. }
    assert (Da : isDigit a = true).
    { rewrite forallb_app in D; cbn [forallb] in D.
      rewrite !andb_true_iff in D; tauto. }
    rewrite !validateGermanTaxId_digits by assumption.
    rewrite Z.eqb_eq; intros E; apply Z.eqb_neq; rewrite E.
    unfold Spec.digitValue; intros H; apply Hab; lia.
  - replace (pre ++ a :: suf0 ++ [k]) with ((pre ++ a :: suf0) ++ [k]) in *
      by (rewrite <- app_assoc; reflexivity).
    replace (pre ++ b :: suf0 ++ [k]) with ((pre ++ b :: suf0) ++ [k]) in *
      by (rewrite <- app_assoc; reflexivity).
    rewrite forallb_app in D, D'; cbn [forallb] in D, D'.
    apply andb_true_iff in D; destruct D as [Dm Dk].
    apply andb_true_iff in D'; destruct D' as [Dm' _].
    rewrite andb_true_r in Dk.
    rewrite length_app in L, L'; cbn [length] in L, L'.
    rewrite !validateGermanTaxId_digits by (assumption || lia).
    rewrite Z.eqb_eq; intros E; apply Z.eqb_neq; rewrite <- E.
    intros H; symmetry in H; revert H.
    apply taxIdCheckDigit_sensitive; assumption.
Qed.

Lemma single_digit_error_detected_witness :
  validateGermanTaxId (js "8609" ++ 54%N :: js "742719") = false.
Proof.
  apply (single_digit_error_detected (js "8609") (js "742719") 53%N 54%N);
    [reflexivity | reflexivity | reflexivity | discriminate | reflexivity].
Defined.

(** ** The BIC *)

Lemma firstn_6_split (A : Type) (c : list A) :
  firstn 6 c = firstn 4 c ++ firstn 2 (skipn 4 c).
Proof.
  do 4 (destruct c as [|? c]; [reflexivity|]); reflexivity.
Qed.

Lemma forallb_Forall_letter (s : jsstring) :
  forallb isUpper s = true <-> Forall Spec.IsLetter s.
Proof.
  rewrite forallb_forall, Forall_forall.
  split; intros H x Hx; apply isUpper_spec; auto.
Qed.

(** [validateBIC] accepts exactly the strings that, after removal of white
    space and uppercasing, have 8 or 11 characters, four letters, two
    letters that are a code of the country-code set, and then letters and
    digits only. *)
Theorem validateBIC_iff
  (toUpperCase : jsstring -> jsstring) (countryCodes : list jsstring)
  (s : jsstring) :
  validateBIC toUpperCase countryCodes s = true
  <-> Reference.ValidBIC toUpperCase countryCodes s.
Proof.
  unfold validateBIC, Reference.ValidBIC.
  rewrite stripSpaces_trim.
  set (c := toUpperCase (stripSpaces s)).
  assert (Sub : substring 4 6 c = firstn 2 (skipn 4 c)) by reflexivity.
  rewrite Sub.
  pose proof (includes_In countryCodes (firstn 2 (skipn 4 c))) as I.
  assert (F : forall n, length c = n ->
                forallb isUpper (firstn 6 c)
                && forallb isUpperOrDigit (skipn 6 c)
                = true
                <-> Forall Spec.IsLetter (firstn 4 c)
                    /\ Forall Spec.IsLetter (firstn 2 (skipn 4 c))
                    /\ Forall Spec.IsAlphanumeric (skipn 6 c)).
  { intros n _.
    rewrite andb_true_iff, firstn_6_split, forallb_app, andb_true_iff.
    rewrite !forallb_Forall_letter, forallb_Forall_alnum; tauto. }
  unfold bicFormat8, bicFormat11.
  destruct (Nat.eqb (length c) 8) eqn:L8.
  - apply Nat.eqb_eq in L8.
    cbn [negb andb].
    specialize (F 8%nat L8).
    destruct (forallb isUpper (firstn 6 c)
              && forallb isUpperOrDigit (skipn 6 c));
      cbn [negb].
    + destruct (includes countryCodes _); cbn [negb];
        [split; [intros _ | reflexivity] | split; [discriminate|]].
      * destruct F as [F _]; specialize (F eq_refl).
        destruct I as [I _]; specialize (I eq_refl); tauto.
      * intros (_ & _ & _ & _ & H); apply I in H; discriminate H.
    + split; [discriminate|].
      intros (_ & H1 & H2 & H3 & _).
      assert (false = true) by (apply F; auto); discriminate.
  - apply Nat.eqb_neq in L8.
    destruct (Nat.eqb (length c) 11) eqn:L11.
    + apply Nat.eqb_eq in L11.
      cbn [negb andb].
      specialize (F 11%nat L11).
      destruct (forallb isUpper (firstn 6 c)
                && forallb isUpperOrDigit (skipn 6 c)); cbn [negb].
      * destruct (includes countryCodes _); cbn [negb];
          [split; [intros _ | reflexivity] | split; [discriminate|]].
        -- destruct F as [F _]; specialize (F eq_refl).
           destruct I as [I _]; specialize (I eq_refl); tauto.
        -- intros (_ & _ & _ & _ & H); apply I in H; discriminate H.
      * split; [discriminate|].
        intros (_ & H1 & H2 & H3 & _).
        assert (false = true) by (apply F; auto); discriminate.
    + apply Nat.eqb_neq in L11.
      cbn [negb andb]; split; [discriminate|].
      intros ([H | H] & _); contradiction.
Qed.

(** ** White space *)

Lemma space_is_stripped (c : N) : isSpace c = true -> negb (isSpace c) = false.
Proof. intros ->; reflexivity. Qed.

(** The tax-ID, IBAN and BIC validators ignore white space of every kind
    (blanks, tabs, line ends, no-break spaces, ...) wherever it stands. *)
Theorem white_space_is_ignored
  (toUpperCase : jsstring -> jsstring) (countryCodes : list jsstring)
  (s s' : jsstring) :
  Spec.Inserted isSpace s s' ->
  validateGermanTaxId s' = validateGermanTaxId s
  /\ validateIBAN toUpperCase countryCodes s'
     = validateIBAN toUpperCase countryCodes s
  /\ validateBIC toUpperCase countryCodes s'
     = validateBIC toUpperCase countryCodes s.
Proof.
  intros H.
  assert (E : stripSpaces (trim s') = stripSpaces (trim s)).
  { rewrite !stripSpaces_trim; unfold stripSpaces.
    apply (Inserted_filter _ _ _ _ space_is_stripped H). }
  unfold validateGermanTaxId, validateIBAN, validateBIC; rewrite E.
  repeat split.
Qed.

Lemma white_space_is_ignored_witness :
  validateGermanTaxId (9%N :: js "123 456" ++ 160%N :: js "789 03" ++ [10%N])
  = validateGermanTaxId (js "12345678903")
  /\ validateIBAN Sample.toUpperCaseASCII Sample.countryCodes
       (9%N :: js "123 456" ++ 160%N :: js "789 03" ++ [10%N])
     = validateIBAN Sample.toUpperCaseASCII Sample.countryCodes
         (js "12345678903")
  /\ validateBIC Sample.toUpperCaseASCII Sample.countryCodes
       (9%N :: js "123 456" ++ 160%N :: js "789 03" ++ [10%N])
     = validateBIC Sample.toUpperCaseASCII Sample.countryCodes
         (js "12345678903").
Proof.
  apply (white_space_is_ignored Sample.toUpperCaseASCII Sample.countryCodes).
  cbn [js list_ascii_of_string List.map app].
  repeat (first [ apply Spec.Inserted_nil
                | apply Spec.Inserted_keep
                | apply Spec.Inserted_new; [reflexivity|] ]).
Defined.

(** ** The dispatcher *)

(** [runValidationPreset] accepts exactly a non-empty value that the
    validator named by the key accepts; it warns, once, exactly when the
    value is not empty and the key is none of the four: an empty value is
    rejected before the key is looked at. *)
Theorem runValidationPreset_spec
  (BUFA_MAP : registry) (toUpperCase : jsstring -> jsstring)
  (countryCodes : list jsstring) (presetKey value : jsstring) :
  let out :=
    runValidationPreset BUFA_MAP toUpperCase countryCodes presetKey value in
  (fst out = true
   <-> value <> []
       /\ ((presetKey = js "taxId" /\ validateGermanTaxId value = true)
           \/ (presetKey = js "iban"
               /\ validateIBAN toUpperCase countryCodes value = true)
           \/ (presetKey = js "bic"
               /\ validateBIC toUpperCase countryCodes value = true)
           \/ (presetKey = js "taxNumber"
               /\ valid (validateSteuernummer BUFA_MAP value) = true)))
  /\ snd out
     = (if match value with [] => false | _ => true end
           && negb (existsb (str_eqb presetKey)
                      [js "taxId"; js "iban"; js "bic"; js "taxNumber"])
        then [js "[runValidationPreset] Unknown validation preset: "
              ++ [34%N] ++ presetKey ++ [34%N]]
        else []).
Proof.
  cbv zeta; unfold runValidationPreset.
  destruct value as [|v value].
  { split; [|reflexivity].
    split; [discriminate | intros (H & _); contradiction]. }
  set (w := v :: value).
  assert (NE : w <> []) by discriminate.
  cbn [existsb andb].
  destruct (str_eqb presetKey (js "taxId")) eqn:K1.
  { apply str_eqb_eq in K1; subst presetKey; cbn [fst snd orb negb].
    split; [|reflexivity].
    split; [intros H; split; [exact NE | left; auto]|].
    intros (_ & [(_ & H) | [(E & _) | [(E & _) | (E & _)]]]);
      [exact H | discriminate E | discriminate E | discriminate E]. }
  destruct (str_eqb presetKey (js "iban")) eqn:K2.
  { apply str_eqb_eq in K2; subst presetKey; cbn [fst snd orb negb].
    split; [|reflexivity].
    split; [intros H; split; [exact NE | right; left; auto]|].
    intros (_ & [(E & _) | [(_ & H) | [(E & _) | (E & _)]]]);
      [discriminate E | exact H | discriminate E | discriminate E]. }
  destruct (str_eqb presetKey (js "bic")) eqn:K3.
  { apply str_eqb_eq in K3; subst presetKey; cbn [fst snd orb negb].
    split; [|reflexivity].
    split; [intros H; split; [exact NE | right; right; left; auto]|].
    intros (_ & [(E & _) | [(E & _) | [(_ & H) | (E & _)]]]);
      [discriminate E | discriminate E | exact H | discriminate E]. }
  destruct (str_eqb presetKey (js "taxNumber")) eqn:K4.
  { apply str_eqb_eq in K4; subst presetKey; cbn [fst snd orb negb].
    split; [|reflexivity].
    unfold validateGermanTaxNumber.
    split; [intros H; split; [exact NE | right; right; right; auto]|].
    intros (_ & [(E & _) | [(E & _) | [(E & _) | (_ & H)]]]);
      [discriminate E | discriminate E | discriminate E | exact H]. }
  cbn [fst snd orb negb]; split; [|reflexivity].
  split; [discriminate|].
  intros (_ & [(E & _) | [(E & _) | [(E & _) | (E & _)]]]); subst presetKey;
    rewrite str_eqb_refl in *; discriminate.
Qed.

(** ** The IBAN: error detection *)

Lemma validateIBAN_true
  (toUpperCase : jsstring -> jsstring) (countryCodes : list jsstring)
  (s : jsstring) :
  validateIBAN toUpperCase countryCodes s = true ->
  ibanFormat (toUpperCase (stripSpaces s)) = true
  /\ Spec.mod97
       (flat_map Spec.numeral
          (skipn 4 (toUpperCase (stripSpaces s))
           ++ firstn 4 (toUpperCase (stripSpaces s)))) = 1.
Proof.
  unfold validateIBAN; rewrite stripSpaces_trim.
  set (c := toUpperCase (stripSpaces s)).
  destruct ((length c <? 15)%nat || (34 <? length c)%nat); [discriminate|].
  destruct (ibanFormat c) eqn:F; [|discriminate].
  cbn [negb].
  destruct (includes countryCodes _); [|discriminate].
  cbn [negb].
  change (fold_left _ ?l (Some 0)) with (fold_left ibanLoopBody l (Some 0)).
  rewrite (ibanLoop_spec _ 0 ltac:(lia) (rearranged_alnum c F)).
  cbn [strictEq]; rewrite Z.eqb_eq.
  intros H; split; [reflexivity | exact H].
Qed.

Lemma digit_not_upper (c : N) : isDigit c = true -> isUpper c = false.
Proof.
  intros H; apply isDigit_spec in H; unfold Spec.IsDigit, isUpper in *.
  apply andb_false_iff; rewrite !N.leb_gt; lia.
Qed.

Lemma rearranged_substitution (pre suf : jsstring) :
  (2 <= length pre)%nat ->
  exists P S,
    forall x,
      skipn 4 (pre ++ x :: suf) ++ firstn 4 (pre ++ x :: suf) = P ++ x :: S.
Proof.
  intros L.
  destruct pre as [|p0 [|p1 [|p2 [|p3 pre']]]];
    try (simpl in L; lia).
  - exists (skipn 1 suf ++ [p0; p1]), (firstn 1 suf); intros x.
    cbn [app skipn firstn]; rewrite <- app_assoc; reflexivity.
  - exists (suf ++ [p0; p1; p2]), []; intros x.
    cbn [app skipn firstn]; rewrite <- app_assoc; reflexivity.
  - exists pre', (suf ++ [p0; p1; p2; p3]); intros x.
    cbn [app skipn firstn]; rewrite <- app_assoc; reflexivity.
Qed.

Lemma mod97_step_range (r d : Z) : 0 <= (r * 10 + d) mod 97 < 97.
Proof. apply Z.mod_pos_bound; lia. Qed.

Lemma mod97_fold_range (l : list Z) (r : Z) :
  0 <= r < 97 ->
  0 <= fold_left (fun remainder digit => (remainder * 10 + digit) mod 97) l r
  < 97.
Proof.
  revert r; induction l as [|d l IH]; intros r H; simpl; [exact H|].
  apply IH, mod97_step_range.
Qed.

Lemma mod97_step_injective (r r' d : Z) :
  0 <= r < 97 -> 0 <= r' < 97 ->
  (r * 10 + d) mod 97 = (r' * 10 + d) mod 97 -> r = r'.
Proof.
  intros H H' E.
  assert (D : (10 * (r - r')) mod 97 = 0).
  { replace (10 * (r - r')) with ((r * 10 + d) - (r' * 10 + d)) by ring.
    rewrite Zminus_mod, E, Z.sub_diag; reflexivity. }
  apply Z.mod_divide in D; [|lia].
  apply Z.gauss in D; [|reflexivity].
  destruct D as [k D]; lia.
Qed.

Lemma mod97_fold_injective (l : list Z) (r r' : Z) :
  0 <= r < 97 -> 0 <= r' < 97 ->
  fold_left (fun remainder digit => (remainder * 10 + digit) mod 97) l r
  = fold_left (fun remainder digit => (remainder * 10 + digit) mod 97) l r' ->
  r = r'.
Proof.
  revert r r'; induction l as [|d l IH]; intros r r' H H'; simpl; [auto|].
  intros E.
  apply (mod97_step_injective r r' d H H').
  apply IH; [apply mod97_step_range | apply mod97_step_range | exact E].
Qed.

(** Replacing a digit of the rearranged string changes the remainder. *)
Lemma mod97_sensitive (P S : jsstring) (a b : N) :
  isDigit a = true -> isDigit b = true -> a <> b ->
  Spec.mod97 (flat_map Spec.numeral (P ++ a :: S))
  <> Spec.mod97 (flat_map Spec.numeral (P ++ b :: S)).
Proof.
  intros Da Db Hab.
  unfold Spec.mod97.
  rewrite !flat_map_app; cbn [flat_map].
  unfold Spec.numeral at 2 5.
  rewrite (digit_not_upper a Da), (digit_not_upper b Db).
  rewrite !fold_left_app; cbn [fold_left app].
  set (step := fun remainder digit : Z => (remainder * 10 + digit) mod 97).
  set (r := fold_left step (flat_map Spec.numeral P) 0).
  assert (Hr : 0 <= r < 97) by (apply mod97_fold_range; lia).
  intros E.
  apply mod97_fold_injective in E; try apply mod97_step_range.
  pose proof (digitValue_range a Da); pose proof (digitValue_range b Db).
  assert (Spec.digitValue a <> Spec.digitValue b)
    by (unfold Spec.digitValue; lia).
  subst step; cbv beta in E.
  revert E; Z.div_mod_to_equations; lia.
Qed.

(** Every single-digit error is detected: if an IBAN is valid, replacing
    one digit of its cleaned form by another digit, wherever it stands,
    gives an invalid one. *)
Theorem iban_single_digit_error_detected
  (toUpperCase : jsstring -> jsstring) (countryCodes : list jsstring)
  (s s' pre suf : jsstring) (a b : N) :
  toUpperCase (stripSpaces s) = pre ++ a :: suf ->
  toUpperCase (stripSpaces s') = pre ++ b :: suf ->
  isDigit a = true -> isDigit b = true -> a <> b ->
  validateIBAN toUpperCase countryCodes s = true ->
  validateIBAN toUpperCase countryCodes s' = false.
Proof.
  intros C C' Da Db Hab V.
  destruct (validateIBAN toUpperCase countryCodes s') eqn:V'; [|reflexivity].
  exfalso.
  destruct (validateIBAN_true _ _ _ V) as [F M].
  destruct (validateIBAN_true _ _ _ V') as [_ M'].
  rewrite C in F, M; rewrite C' in M'.
  assert (L : (2 <= length pre)%nat).
  { destruct pre as [|p0 [|p1 pre']]; [| |simpl; lia].
    - cbn [app ibanFormat] in F.
      destruct suf as [|? [|? [|? [|? ?]]]]; try discriminate F.
      rewrite (digit_not_upper a Da) in F; discriminate F.
    - cbn [app ibanFormat] in F.
      destruct suf as [|? [|? [|? ?]]]; try discriminate F.
      rewrite (digit_not_upper a Da), andb_false_r in F; discriminate F. }
  destruct (rearranged_substitution pre suf L) as (P & S & R).
  rewrite R in M, M'.
  apply (mod97_sensitive P S a b Da Db Hab); congruence.
Qed.

Lemma iban_single_digit_error_detected_witness :
  validateIBAN Sample.toUpperCaseASCII Sample.countryCodes
    (js "DE89 3704 0044 0532 0130 01") = false.
Proof.
  apply (iban_single_digit_error_detected Sample.toUpperCaseASCII
           Sample.countryCodes (js "de89 3704 0044 0532 0130 00")
           (js "DE89 3704 0044 0532 0130 01")
           (js "DE8937040044053201300") [] 48%N 49%N);
    [reflexivity | reflexivity | reflexivity | reflexivity | discriminate
    | reflexivity].
Defined.

(** ** Characters that are not digits *)

Lemma non_digit_is_stripped (c : N) :
  negb (isDigit c) = true -> isDigit c = false.
Proof. destruct (isDigit c); [discriminate | reflexivity]. Qed.

(** [validateSteuernummer] ignores every character that is not a decimal
    digit, letters included, wherever it stands: the outcome is the one of
    the digits alone. *)
Theorem non_digits_are_ignored (BUFA_MAP : registry) (s s' : jsstring) :
  Spec.Inserted (fun c => negb (isDigit c)) s s' ->
  validateSteuernummer BUFA_MAP s' = validateSteuernummer BUFA_MAP s.
Proof.
  intros H.
  rewrite (validateSteuernummer_digits _ s').
  rewrite (validateSteuernummer_digits _ s).
  unfold stripNonDigits.
  rewrite (Inserted_filter _ _ _ _ non_digit_is_stripped H); reflexivity.
Qed.

Lemma non_digits_are_ignored_witness :
  validateSteuernummer Sample.BUFA_MAP (js "1116A/012x345678")
  = validateSteuernummer Sample.BUFA_MAP (js "1116012345678").
Proof.
  apply (non_digits_are_ignored Sample.BUFA_MAP).
  repeat (first [ apply Spec.Inserted_nil
                | apply Spec.Inserted_keep
                | apply Spec.Inserted_new; [reflexivity|] ]).
Defined.
